(** * Credit-default inference service: the [/predict] handler of [app.py]

    A shallow embedding of [src/app.py].  The handler receives a JSON body,
    builds a one-row pandas frame from it, aligns the frame with the feature
    names stored in the fitted artifacts, imputes nulls, scales, and asks the
    model for a label and a probability.

    What is modelled, and how:
    - JSON / Python values are the inductive [json]; a string is a list of
      characters; a Python [dict] is an insertion-ordered association list
      maintained by [dict_set].
    - Python floats are idealised as real numbers plus NaN and the two
      infinities: arithmetic on finite floats is exact.  The one rounding
      that is modelled is the cast of an integer cell to float64, which
      pandas applies when it gathers a row or a frame of mixed numeric
      columns under one dtype.
    - The HTTP layer is the part of FastAPI the handler depends on: the
      validation of the body as [AnyDict] before the handler runs, and the
      JSON encoding of the returned dict after it has returned.
    - A pandas [DataFrame] is a row count and an ordered list of labelled
      columns; only the calls the handler makes are modelled, each one next
      to the source expression it stands for.  Column labels are taken to be
      distinct (payload keys are dict keys; [feature_names_in_] comes from the
      labels of the training frame).
    - The scaler and the model are opaque objects: every call into them may
      return or raise, and optional attributes are [option]s ([hasattr]).
    - Exceptions are values of [pyexc]; fallible code lives in the error
      monad [result], and [try_except] is Python's [try ... except Exception]. *)

From Stdlib Require Import ZArith List String Bool Lia Reals Lra Permutation.
From Stdlib Require Import DecimalString.
Import ListNotations.
Set Warnings "-register-all".
Local Open Scope string_scope.
Local Open Scope Z_scope.

(** ** Values *)

(** A Python [float]: a real number, NaN, or one of the two infinities
    (a JSON body can carry all three: [json.loads] reads [NaN], [Infinity]
    and [-Infinity], and a literal such as [1e400] overflows to infinity). *)
Inductive pyfloat : Type :=
| NaN
| PosInf
| NegInf
| Real (r : R).

Definition finite (f : pyfloat) : bool :=
  match f with
  | Real _ => true
  | _ => false
  end.

(** A decoded JSON value, which is also the Python object [json.loads]
    yields for it ([JObj] keeps the members in textual order). *)
Inductive json : Type :=
| JNull
| JBool (b : bool)
| JInt (z : Z)
| JFloat (f : pyfloat)
| JStr (s : string)
| JArr (items : list json)
| JObj (members : list (string * json)).

(** ** Exceptions and the error monad *)

Inductive pyexc : Type :=
| HTTPException (status_code : Z) (detail : string)
| PyError (cls : string) (msg : string).

Inductive result (A : Type) : Type :=
| Ok (a : A)
| Raise (e : pyexc).
Arguments Ok {A} a.
Arguments Raise {A} e.

Definition bind {A B : Type} (m : result A) (k : A -> result B) : result B :=
  match m with
  | Ok a => k a
  | Raise e => Raise e
  end.

Declare Scope py_scope.
Delimit Scope py_scope with py.
Notation "x <- m ;; k" := (bind m (fun x => k))
  (at level 61, m at next level, right associativity) : py_scope.
Local Open Scope py_scope.

(** [try: body  except Exception as e: handler e] *)
Definition try_except {A : Type} (body : result A) (handler : pyexc -> result A)
  : result A :=
  match body with
  | Ok a => Ok a
  | Raise e => handler e
  end.

(** A [for] loop whose body may raise, threading the loop state. *)
Fixpoint for_each {A S : Type} (body : S -> A -> result S) (xs : list A) (s : S)
  : result S :=
  match xs with
  | [] => Ok s
  | x :: rest => s' <- body s x ;; for_each body rest s'
  end.

(** A comprehension whose element expression may raise. *)
Fixpoint comprehension {A B : Type} (f : A -> result B) (xs : list A)
  : result (list B) :=
  match xs with
  | [] => Ok []
  | x :: rest => y <- f x ;; ys <- comprehension f rest ;; Ok (y :: ys)
  end.

(** ** Python dictionaries *)

Definition dict : Type := list (string * json).

Fixpoint dict_get (d : dict) (k : string) : option json :=
  match d with
  | [] => None
  | (k', v) :: rest => if String.eqb k' k then Some v else dict_get rest k
  end.

(** [d[k] = v]: overwrite in place, or append a new key. *)
Fixpoint dict_set (d : dict) (k : string) (v : json) : dict :=
  match d with
  | [] => [(k, v)]
  | (k', v') :: rest =>
      if String.eqb k' k then (k', v) :: rest else (k', v') :: dict_set rest k v
  end.

Definition dict_keys (d : dict) : list string := map fst d.

(** The dict built from the members of a JSON object (a repeated name keeps
    its first position and its last value). *)
Definition dict_of_pairs (kvs : list (string * json)) : dict :=
  fold_left (fun d kv => dict_set d (fst kv) (snd kv)) kvs [].

(** [k in names] for a list of names. *)
Definition name_in (k : string) (names : list string) : bool :=
  existsb (String.eqb k) names.

(** [enumerate(xs)] *)
Definition enumerate {A : Type} (xs : list A) : list (nat * A) :=
  combine (seq 0 (List.length xs)) xs.

(** ** The pandas calls the handler makes *)

Definition Series : Type := list json.

Record DataFrame : Type := mkFrame {
  nrows : nat;
  cols : list (string * Series)
}.

Definition columns (df : DataFrame) : list string := map fst (cols df).

(** Labels of a list of records, in order of first appearance. *)
Definition add_label (seen : list string) (k : string) : list string :=
  if name_in k seen then seen else seen ++ [k].

Definition record_labels (recs : list dict) : list string :=
  fold_left (fun seen r => fold_left add_label (dict_keys r) seen) recs [].

(** The cell a record contributes to a column: its value, NaN when the
    record lacks the label. *)
Definition record_cell (r : dict) (label : string) : json :=
  match dict_get r label with
  | Some v => v
  | None => JFloat NaN
  end.

(** [pd.DataFrame(recs)] for a list of dicts: one row per record. *)
Definition DataFrame_of_records (recs : list dict) : DataFrame :=
  {| nrows := List.length recs;
     cols := map (fun c => (c, map (fun r => record_cell r c) recs))
                 (record_labels recs) |}.

Fixpoint find_column (cs : list (string * Series)) (label : string)
  : option Series :=
  match cs with
  | [] => None
  | (c, s) :: rest => if String.eqb c label then Some s else find_column rest label
  end.

(** *** Column dtypes and the cast to a common dtype *)

(** The numpy dtypes a column built from JSON values can have. *)
Inductive dtype : Type := int64 | uint64 | float64 | bool_ | object_.

Definition dtype_eqb (t u : dtype) : bool :=
  match t, u with
  | int64, int64 | uint64, uint64 | float64, float64
  | bool_, bool_ | object_, object_ => true
  | _, _ => false
  end.

Definition is_numeric_kind (t : dtype) : bool :=
  match t with
  | int64 | uint64 | float64 => true
  | _ => false
  end.

Definition is_bool_kind (t : dtype) : bool :=
  match t with
  | bool_ => true
  | _ => false
  end.

(** The dtype pandas infers for a column holding this one cell: an integer
    is int64 when it fits, uint64 when it fits only unsigned, and a Python
    object beyond that; strings, [None], arrays and objects are objects. *)
Definition dtype_of_cell (v : json) : dtype :=
  match v with
  | JInt z =>
      if (- 2 ^ 63 <=? z) && (z <? 2 ^ 63) then int64
      else if (2 ^ 63 <=? z) && (z <? 2 ^ 64) then uint64
      else object_
  | JFloat _ => float64
  | JBool _ => bool_
  | _ => object_
  end.

(** The common dtype of two dtypes: equal dtypes stay; two different
    numeric dtypes give float64 (numpy's [result_type], also for int64 with
    uint64); any other mix gives object (pandas never mixes booleans with
    numbers, and an object dtype absorbs everything). *)
Definition common2 (t u : dtype) : dtype :=
  if dtype_eqb t u then t
  else if is_numeric_kind t && is_numeric_kind u then float64
  else object_.

Definition common_step (acc : option dtype) (t : dtype) : option dtype :=
  Some (match acc with
        | None => t
        | Some u => common2 u t
        end).

(** pandas' [find_common_type] over the dtypes of the columns, computed
    pairwise; object when there is no column. *)
Definition find_common_type (ts : list dtype) : dtype :=
  match fold_left common_step ts None with
  | Some t => t
  | None => object_
  end.

(** The integer value of the float64 nearest to the integer [z], ties to
    even: exact below 2^53, a multiple of the unit in the last place above.
    It is applied to int64 and uint64 cells only. *)
Definition round_to_double (z : Z) : Z :=
  let m := Z.abs z in
  if m <? 2 ^ 53 then z
  else
    let ulp := 2 ^ (Z.log2 m - 52) in
    let q := m / ulp in
    let r := m mod ulp in
    let q' := if 2 * r <? ulp then q
              else if ulp <? 2 * r then q + 1
              else if Z.even q then q else q + 1 in
    Z.sgn z * (q' * ulp).

(** Storing a cell in an array of dtype [t]: an integer stored as float64
    becomes the nearest float; nothing else changes for the dtypes that
    [find_common_type] yields here. *)
Definition astype (t : dtype) (v : json) : json :=
  match t, v with
  | float64, JInt z => JFloat (Real (IZR (round_to_double z)))
  | _, _ => v
  end.

(** The dtype of a column, and the dtype under which pandas interleaves
    the columns of a frame. *)
Definition series_dtype (s : Series) : dtype :=
  find_common_type (map dtype_of_cell s).

Definition frame_dtype (df : DataFrame) : dtype :=
  find_common_type (map (fun c => series_dtype (snd c)) (cols df)).

Fixpoint row_get (row : list (string * json)) (label : string) : option json :=
  match row with
  | [] => None
  | (c, v) :: rest => if String.eqb c label then Some v else row_get rest label
  end.

(** [df.iloc[0]]: the first row as one Series, its cells cast to the dtype
    common to the columns. *)
Definition iloc0 (df : DataFrame) : result (list (string * json)) :=
  match nrows df with
  | O => Raise (PyError "IndexError" "single positional indexer is out-of-bounds")
  | S _ =>
      Ok (map (fun c => (fst c, astype (frame_dtype df) (nth 0 (snd c) (JFloat NaN))))
              (cols df))
  end.

(** [row.loc[label]] *)
Definition loc (row : list (string * json)) (label : string) : result json :=
  match row_get row label with
  | Some v => Ok v
  | None => Raise (PyError "KeyError" label)
  end.

(** [df.iloc[0].loc[label]] *)
Definition iloc0_loc (df : DataFrame) (label : string) : result json :=
  row <- iloc0 df ;; loc row label.

(** [df[labels]] for a list of labels. *)
Definition getitem_labels (df : DataFrame) (labels : list string)
  : result DataFrame :=
  cs <- comprehension
          (fun c => match find_column (cols df) c with
                    | Some s => Ok (c, s)
                    | None => Raise (PyError "KeyError" c)
                    end) labels ;;
  Ok {| nrows := nrows df; cols := cs |}.

(** pandas' null test on a cell: [None] and NaN (an infinity is not null). *)
Definition isnull (v : json) : bool :=
  match v with
  | JNull => true
  | JFloat NaN => true
  | _ => false
  end.

(** [s.isnull().any()] *)
Definition series_has_null (s : Series) : bool := existsb isnull s.

(** [df.isnull().any().any()] *)
Definition frame_has_null (df : DataFrame) : bool :=
  existsb (fun c => series_has_null (snd c)) (cols df).

(** [s.fillna(v)] *)
Definition fillna (s : Series) (v : json) : Series :=
  map (fun x => if isnull x then v else x) s.

(** [df.fillna(value=fill)] for a dict of per-column fill values. *)
Definition fillna_by_column (df : DataFrame) (fill : dict) : DataFrame :=
  {| nrows := nrows df;
     cols := map (fun c => match dict_get fill (fst c) with
                           | Some v => (fst c, fillna (snd c) v)
                           | None => c
                           end) (cols df) |}.

(** [s.dropna()] *)
Definition dropna (s : Series) : Series := filter (fun x => negb (isnull x)) s.

(** A cell pandas stores in a numeric column (int64, uint64 or float64). *)
Definition is_number (v : json) : bool :=
  match v with
  | JInt z => (- 2 ^ 63 <=? z) && (z <? 2 ^ 64)
  | JFloat _ => true
  | _ => false
  end.

(** [select_dtypes(include=[np.number])] keeps a column when the dtype
    pandas infers from its cells is numeric (a NaN cell makes a float64
    column, a [None] cell an object column). *)
Definition numeric_dtype (s : Series) : bool := forallb is_number s.

(** [df.values]: the rows of the frame as one array, its cells cast to the
    dtype common to the columns. *)
Definition values (df : DataFrame) : list (list json) :=
  map (fun i => map (fun c => astype (frame_dtype df) (nth i (snd c) (JFloat NaN)))
                    (cols df))
      (seq 0 (nrows df)).

(** ** The fitted artifacts *)

Definition ndarray : Type := list (list json).

(** The scaler: [feature_names_in_] and [mean_] are optional attributes;
    [mean_at i] is [float(scaler.mean_[i])], which raises when the entry is
    missing or is not a number. *)
Record Scaler : Type := mkScaler {
  scaler_feature_names_in_ : option (list string);
  mean_ : option (nat -> result pyfloat);
  transform : DataFrame -> result ndarray
}.

(** The model: [predict x] is [int(model.predict(x)[0])], [proba x] is
    [float(model.predict_proba(x)[0][1])] and [decision x] is
    [float(model.decision_function(x)[0])]. *)
Record Model : Type := mkModel {
  model_feature_names_in_ : option (list string);
  predict : ndarray -> result Z;
  predict_proba : option (ndarray -> result pyfloat);
  decision_function : option (ndarray -> result pyfloat)
}.

(** The module-level globals [model] and [scaler]. *)
Record artifacts : Type := mkArtifacts {
  model : option Model;
  scaler : option Scaler
}.

(** Start-up (lines 25-31): both loads sit in one [try], the model first, so
    a failed model load leaves both globals at [None]. *)
Definition startup (load_model : result Model) (load_scaler : result Scaler)
  : artifacts :=
  match load_model with
  | Raise _ => {| model := None; scaler := None |}
  | Ok m =>
      match load_scaler with
      | Raise _ => {| model := Some m; scaler := None |}
      | Ok s => {| model := Some m; scaler := Some s |}
      end
  end.

(** Lines 73-77: the expected feature names, from the scaler, else the model. *)
Definition expected_features (a : artifacts) : option (list string) :=
  match scaler a with
  | Some {| scaler_feature_names_in_ := Some names |} => Some names
  | _ =>
      match model a with
      | Some {| model_feature_names_in_ := Some names |} => Some names
      | _ => None
      end
  end.

(** Lines 81-87: the single-row frame over the expected columns. *)
Definition align (expected : list string) (data : DataFrame) : result DataFrame :=
  let base := fold_left (fun d col => dict_set d col (JInt 0)) expected [] in
  base <- for_each
            (fun base col =>
               if name_in col expected
               then v <- iloc0_loc data col ;; Ok (dict_set base col v)
               else Ok base)
            (columns data) base ;;
  getitem_labels (DataFrame_of_records [base]) expected.

(** The row the alignment produces: one cell per expected name, the
    payload's value as the gathered row presents it, or 0. *)
Definition aligned_cell (features : dict) (c : string) : json :=
  match dict_get features c with
  | Some v => astype (frame_dtype (DataFrame_of_records [features])) v
  | None => JInt 0
  end.

Definition aligned_row (expected : list string) (features : dict) : DataFrame :=
  {| nrows := 1; cols := map (fun c => (c, [aligned_cell features c])) expected |}.

(** Lines 69-90: the frame handed to imputation. *)
Definition column_alignment (a : artifacts) (features : dict) : result DataFrame :=
  let data := DataFrame_of_records [features] in
  match expected_features a with
  | Some expected => align expected data
  | None => Ok data
  end.

(** Lines 95-100: fill from the scaler's training means; any failure while
    the fill values are gathered leaves the frame as it was. *)
Definition mean_imputation (a : artifacts) (df : DataFrame) : result DataFrame :=
  match scaler a, expected_features a with
  | Some {| mean_ := Some mean_at |}, Some expected =>
      try_except
        (fill_values <- comprehension
                          (fun ic => m <- mean_at (fst ic) ;; Ok (snd ic, JFloat m))
                          (enumerate expected) ;;
         Ok (fillna_by_column df (dict_of_pairs fill_values)))
        (fun _ => Ok df)
  | _, _ => Ok df
  end.

(** [1.0 / (1.0 + np.exp(-score))]: NaN propagates; for a score of plus
    infinity [np.exp] yields 0 and the quotient is 1; for minus infinity
    [np.exp] yields infinity and the quotient is 0. *)
Definition sigmoid (score : pyfloat) : pyfloat :=
  match score with
  | NaN => NaN
  | PosInf => Real 1
  | NegInf => Real 0
  | Real x => Real (1 / (1 + exp (- x)))
  end.

(** Lines 129-141: the probability, [None] when no method yields one. *)
Definition probability_step (m : Model) (data_scaled : ndarray)
  : result (option pyfloat) :=
  probability <-
    try_except
      (match predict_proba m with
       | Some proba => p <- proba data_scaled ;; Ok (Some p)
       | None => Ok None
       end)
      (fun _ => Ok None) ;;
  match probability with
  | Some p => Ok (Some p)
  | None =>
      try_except
        (match decision_function m with
         | Some decision =>
             score <- decision data_scaled ;; Ok (Some (sigmoid score))
         | None => Ok None
         end)
        (fun _ => Ok None)
  end.

(** A Python [float] or [None] as a JSON value. *)
Definition json_of_probability (p : option pyfloat) : json :=
  match p with
  | Some f => JFloat f
  | None => JNull
  end.

Section Handler.

(** Library functions the handler calls and whose results it only passes on:
    [str(e)] and [traceback.format_exc()] for the exception being handled,
    [Series.median] of a column's non-null values, and the modes pandas
    finds among a non-empty list of non-null values. *)
Variable pystr : pyexc -> string.
Variable format_exc : pyexc -> string.
Variable median : Series -> json.
Variable mode_values : Series -> Series.

(** [s.mode()]: the modes of the non-null cells; none when every cell is null. *)
Definition Series_mode (s : Series) : Series :=
  match dropna s with
  | [] => []
  | v :: rest => mode_values (v :: rest)
  end.

(** [s[0]] on the result of [mode()]. *)
Definition getitem0 (s : Series) : result json :=
  match s with
  | v :: _ => Ok v
  | [] => Raise (PyError "KeyError" "0")
  end.

(** Lines 105-109, one column of [num_cols].  A numeric column that holds
    a null is a float64 column, so the fill value is stored as float64. *)
Definition impute_numeric_column (s : Series) : Series :=
  if series_has_null s then
    let non_null := dropna s in
    fillna s (astype float64 (match non_null with
                              | [] => JInt 0
                              | _ :: _ => median non_null
                              end))
  else s.

(** Lines 112-119, one column of [obj_cols]. *)
Definition impute_object_column (s : Series) : result Series :=
  if series_has_null s then
    try_except
      (mode <- getitem0 (Series_mode s) ;; Ok (fillna s mode))
      (fun _ => Ok (fillna s (JStr "")))
  else Ok s.

(** Lines 103-119: the median / mode fallback. *)
Definition fallback_imputation (df : DataFrame) : result DataFrame :=
  if frame_has_null df then
    let numeric_done :=
      map (fun c => if numeric_dtype (snd c)
                    then (fst c, impute_numeric_column (snd c)) else c)
          (cols df) in
    cs <- comprehension
            (fun c => if numeric_dtype (snd c) then Ok c
                      else s <- impute_object_column (snd c) ;; Ok (fst c, s))
            numeric_done ;;
    Ok {| nrows := nrows df; cols := cs |}
  else Ok df.

(** Lines 92-119: the imputation cascade. *)
Definition imputation (a : artifacts) (df : DataFrame) : result DataFrame :=
  if frame_has_null df then
    df <- mean_imputation a df ;;
    fallback_imputation df
  else Ok df.

(** Lines 69-119: [data_to_scale] as it reaches the scaling step. *)
Definition data_to_scale (a : artifacts) (features : dict) : result DataFrame :=
  df <- column_alignment a features ;;
  imputation a df.

(** Lines 121-124: the scaling step. *)
Definition scaling (a : artifacts) (df : DataFrame) : result ndarray :=
  match scaler a with
  | Some s => transform s df
  | None => Ok (values df)
  end.

Definition model_not_loaded : json := JObj [("error", JStr "model not loaded")].

Definition prediction_result (prediction : Z) (probability : option pyfloat) : json :=
  JObj [("default_prediction", JInt prediction);
        ("default_probability", json_of_probability probability)].

Definition error_with_trace (e : pyexc) : json :=
  JObj [("error", JStr (pystr e)); ("trace", JStr (format_exc e))].

(** Lines 125-146: prediction and the returned dict. *)
Definition predict_and_respond (a : artifacts) (data_scaled : ndarray) : result json :=
  match model a with
  | None => Ok model_not_loaded
  | Some m =>
      prediction <- predict m data_scaled ;;
      probability <- probability_step m data_scaled ;;
      Ok (prediction_result prediction probability)
  end.

(** The handler [predict_default], applied to [payload.__root__] (the log
    line of line 70 has no effect on the result and is left out). *)
Definition predict_default (a : artifacts) (root : json) : result json :=
  try_except
    (match root with
     | JObj features =>
         df <- data_to_scale a features ;;
         data_scaled <- scaling a df ;;
         predict_and_respond a data_scaled
     | _ =>
         Raise (HTTPException 400
                  "payload must be a JSON object of feature:value pairs")
     end)
    (fun e => Ok (error_with_trace e)).

(** ** The HTTP layer around the handler *)

Record response : Type := mkResponse {
  status : Z;
  body : json
}.

(** *** The [AnyDict] wrapper (lines 59-60)

    pydantic keeps a body that is a dict, gives any other body to Python's
    [dict()], and then validates every key of the outcome as a [str]. *)

(** One element of the iterable given to [dict()], split into a key and a
    value: an array of two elements; a string of two characters, which are
    the key and the value; an object of two names, which iterates as its
    names.  Any other element makes [dict()] raise. *)
Definition pair_of_item (item : json) : option (json * json) :=
  match item with
  | JArr [k; v] => Some (k, v)
  | JStr (String c1 (String c2 EmptyString)) =>
      Some (JStr (String c1 EmptyString), JStr (String c2 EmptyString))
  | JObj members =>
      match dict_of_pairs members with
      | [(k1, _); (k2, _)] => Some (JStr k1, JStr k2)
      | _ => None
      end
  | _ => None
  end.

(** The keys [dict()] can hash.  An array or an object is unhashable.  A
    float is hashable in Python, but whether it equals an integer key and
    what its [str] is depend on the digits of the float, which real-valued
    floats do not provide: a pair led by a float is outside this model and
    is refused like an unhashable key. *)
Definition hashable (k : json) : bool :=
  match k with
  | JNull | JBool _ | JInt _ | JStr _ => true
  | _ => false
  end.

(** Python compares keys by value: [True] is 1 and [False] is 0. *)
Definition key_number (k : json) : option Z :=
  match k with
  | JInt z => Some z
  | JBool b => Some (if b then 1 else 0)
  | _ => None
  end.

Definition key_eqb (k1 k2 : json) : bool :=
  match k1, k2 with
  | JNull, JNull => true
  | JStr s1, JStr s2 => String.eqb s1 s2
  | _, _ =>
      match key_number k1, key_number k2 with
      | Some z1, Some z2 => Z.eqb z1 z2
      | _, _ => false
      end
  end.

(** [d[k] = v] on a dict keyed by Python objects: an equal key keeps its
    place and its first spelling and takes the new value. *)
Fixpoint pydict_set (d : list (json * json)) (k v : json) : list (json * json) :=
  match d with
  | [] => [(k, v)]
  | (k', v') :: rest =>
      if key_eqb k' k then (k', v) :: rest else (k', v') :: pydict_set rest k v
  end.

(** [dict(items)] for the elements of an array, continuing from [d]. *)
Fixpoint dict_of_items (items : list json) (d : list (json * json))
  : option (list (json * json)) :=
  match items with
  | [] => Some d
  | item :: rest =>
      match pair_of_item item with
      | Some (k, v) =>
          if hashable k then dict_of_items rest (pydict_set d k v) else None
      | None => None
      end
  end.

(** Python's [str] of an integer. *)
Definition str_of_int (z : Z) : string := NilZero.string_of_int (Z.to_int z).

(** pydantic's [str] validator on a key: a string stays, an integer or a
    boolean becomes its [str], [None] is refused. *)
Definition str_validator (k : json) : option string :=
  match k with
  | JStr s => Some s
  | JInt z => Some (str_of_int z)
  | JBool b => Some (if b then "True" else "False")
  | _ => None
  end.

(** The validated dict, filled key by key in the order of the dict that
    [dict()] built; one refused key fails the whole body. *)
Fixpoint validate_keys (d : list (json * json)) (validated : dict) : option dict :=
  match d with
  | [] => Some validated
  | (k, v) :: rest =>
      match str_validator k with
      | Some s => validate_keys rest (dict_set validated s v)
      | None => None
      end
  end.

(** The value of [payload.__root__] for a request body, [None] when the
    body fails validation.  An object is a dict already.  An array goes
    through [dict()] and the validation of its keys, so the empty array and
    an array of pairs become dicts.  The empty string iterates as no pair
    at all and becomes the empty dict; a non-empty string iterates as
    one-character strings, which are no pairs.  A number, a boolean and
    [null] cannot be iterated. *)
Definition AnyDict_validate (request_body : json) : option json :=
  match request_body with
  | JObj members => Some (JObj (dict_of_pairs members))
  | JArr items =>
      match dict_of_items items [] with
      | Some d =>
          match validate_keys d [] with
          | Some features => Some (JObj features)
          | None => None
          end
      | None => None
      end
  | JStr s => if String.eqb s "" then Some (JObj []) else None
  | _ => None
  end.

(** The JSON encoder the framework applies to a returned value refuses a
    float that is not finite ([allow_nan=False]): NaN and the infinities. *)
Fixpoint encodable (v : json) : bool :=
  match v with
  | JFloat f => finite f
  | JArr items => forallb encodable items
  | JObj members => forallb (fun kv => encodable (snd kv)) members
  | _ => true
  end.

(** What FastAPI sends for the outcome of a handler: 200 with the returned
    dict as body when the dict encodes as JSON, 500 when encoding it
    fails (that happens after the handler's [try] has ended), the status of
    a raised [HTTPException], 500 for any other exception. *)
Definition respond (outcome : result json) : response :=
  match outcome with
  | Ok b =>
      if encodable b then {| status := 200; body := b |}
      else {| status := 500; body := JStr "Internal Server Error" |}
  | Raise (HTTPException code detail) =>
      {| status := code; body := JObj [("detail", JStr detail)] |}
  | Raise (PyError _ _) =>
      {| status := 500; body := JStr "Internal Server Error" |}
  end.

(** The framework's answer to a body that fails validation: status 422
    with the list of validation errors, abbreviated here to the message of
    the dict error. *)
Definition validation_error : response :=
  {| status := 422; body := JObj [("detail", JStr "value is not a valid dict")] |}.

(** [POST /predict]: the body is validated as [AnyDict]; the handler runs on
    the validated root, and a body that fails validation is answered by the
    framework before the handler runs. *)
Definition predict_endpoint (a : artifacts) (request_body : json) : response :=
  match AnyDict_validate request_body with
  | Some root => respond (predict_default a root)
  | None => validation_error
  end.

End Handler.

(** ** Shapes used to state the properties *)

(** Every column of the frame holds exactly one cell. *)
Definition single_cell_columns (df : DataFrame) : bool :=
  forallb (fun c => Nat.eqb (List.length (snd c)) 1) (cols df).

(** The single-row outcome of the fallback on one column: a column with a
    null cell becomes 0 when numeric and the empty string otherwise. *)
Definition degenerate_fill (c : string * Series) : string * Series :=
  if series_has_null (snd c)
  then (fst c, [if numeric_dtype (snd c) then JFloat (Real 0) else JStr ""])
  else c.

Definition degenerate_fallback (df : DataFrame) : DataFrame :=
  {| nrows := nrows df; cols := map degenerate_fill (cols df) |}.


(** The three bodies [/predict] may answer with. *)
Definition PredictionResult_shape (b : json) : Prop :=
  exists (prediction : Z) (probability : json),
    b = JObj [("default_prediction", JInt prediction);
              ("default_probability", probability)] /\
    (probability = JNull \/ exists f, probability = JFloat f).

Definition error_trace_shape (b : json) : Prop :=
  exists msg trace, b = JObj [("error", JStr msg); ("trace", JStr trace)].

Definition error_only_shape (b : json) : Prop :=
  exists msg, b = JObj [("error", JStr msg)].

(** ** Data for the worked examples *)

(** Instances of the library functions, enough for one-row frames: the
    median and the mode of a single value are that value. *)
Definition str_of_exc (e : pyexc) : string :=
  match e with
  | HTTPException code detail =>
      str_of_int code ++ ": " ++ detail
  | PyError _ msg => msg
  end.

Definition trace_of_exc (e : pyexc) : string :=
  match e with
  | HTTPException _ _ => "Traceback (most recent call last): HTTPException"
  | PyError cls msg => "Traceback (most recent call last): " ++ cls ++ ": " ++ msg
  end.

Definition median_of_one (s : Series) : json := hd (JFloat NaN) s.

Definition modes_of_one (s : Series) : Series := firstn 1 s.

(** The scenario of the specification: schema income, age, debt, with a
    stored training mean of 1200 for debt. *)
Definition scenario_schema : list string := ["income"; "age"; "debt"].

Definition scenario_means (i : nat) : result pyfloat :=
  nth i [Ok (Real 60000); Ok (Real 40); Ok (Real 1200)]
      (Raise (PyError "IndexError" "index out of bounds")).

Definition scenario_scaler : Scaler :=
  {| scaler_feature_names_in_ := Some scenario_schema;
     mean_ := Some scenario_means;
     transform := fun df => Ok (values df) |}.

Definition scenario_payload : list (string * json) :=
  [("income", JInt 50000); ("age", JInt 35)].

(** A classifier that always answers 1 and offers a decision score only. *)
Definition constant_model : Model :=
  {| model_feature_names_in_ := None;
     predict := fun _ => Ok 1;
     predict_proba := None;
     decision_function := Some (fun _ => Ok (Real 0)) |}.

(** A classifier whose [predict] rejects its input, as a fitted estimator
    does for a non-numeric cell. *)
Definition rejecting_model : Model :=
  {| model_feature_names_in_ := None;
     predict := fun _ => Raise (PyError "ValueError"
                                  "could not convert string to float: 'abc'");
     predict_proba := None;
     decision_function := None |}.

Definition scenario_artifacts : artifacts :=
  {| model := Some constant_model; scaler := Some scenario_scaler |}.

(** A classifier fitted on the two features income and age. *)
Definition income_age_model : Model :=
  {| model_feature_names_in_ := Some ["income"; "age"];
     predict := fun _ => Ok 1;
     predict_proba := None;
     decision_function := None |}.

(** A classifier whose class probability comes out as NaN. *)
Definition nan_model : Model :=
  {| model_feature_names_in_ := None;
     predict := fun _ => Ok 1;
     predict_proba := Some (fun _ => Ok NaN);
     decision_function := None |}.

(** A classifier fitted on the single feature [a] that answers the parity
    of an integer input and 0 for any other input. *)
Definition parity_model : Model :=
  {| model_feature_names_in_ := Some ["a"];
     predict := fun x => match x with
                         | [[JInt z]] => Ok (z mod 2)
                         | _ => Ok 0
                         end;
     predict_proba := None;
     decision_function := None |}.

(** ** The other endpoint and further shapes *)

(** [GET /health] (lines 43-45). *)
Definition health (a : artifacts) : json :=
  JObj [("status", JStr "ok");
        ("model_loaded", JBool (match model a with
                                | Some _ => true
                                | None => false
                                end))].

(** What the single-row fallback makes of one cell: a [None] becomes the
    empty string, a NaN becomes the float 0, any other cell stays. *)
Definition fallback_cell (v : json) : json :=
  match v with
  | JNull => JStr ""
  | JFloat NaN => JFloat (Real 0)
  | _ => v
  end.

(** What the cascade makes of one cell when the training mean [m] of its
    column is a number: a null cell takes the mean, any other cell stays. *)
Definition mean_filled_cell (m : R) (v : json) : json :=
  if isnull v then JFloat (Real m) else v.

(** The means of the scenario's scaler as numbers. *)
Definition scenario_mean_values (i : nat) : R :=
  nth i [60000; 40; 1200]%R 0%R.

(** A scaler whose [transform] rejects its input, as a fitted scaler does
    for a cell it cannot convert. *)
Definition rejecting_scaler : Scaler :=
  {| scaler_feature_names_in_ := Some scenario_schema;
     mean_ := Some scenario_means;
     transform := fun _ => Raise (PyError "ValueError"
                                    "could not convert string to float: 'abc'") |}.

(** A scaler that stores one training mean fewer than it has feature
    names, so that reading the last mean raises. *)
Definition short_means_scaler : Scaler :=
  {| scaler_feature_names_in_ := Some scenario_schema;
     mean_ := Some (fun i => nth i [Ok (Real 60000); Ok (Real 40)]
                               (Raise (PyError "IndexError" "index out of bounds")));
     transform := fun df => Ok (values df) |}.

(** * Facts about the embedding *)

(** ** Names, dictionaries and loops *)

Lemma name_in_In (k : string) (names : list string) :
  name_in k names = true <-> In k names.
Proof.
  unfold name_in. rewrite existsb_exists. split.
  - intros [x [Hin Heq]]. apply String.eqb_eq in Heq. now subst.
  - intros Hin. exists k. split; [assumption | apply String.eqb_refl].
Qed.

Lemma name_in_false (k : string) (names : list string) :
  name_in k names = false <-> ~ In k names.
Proof.
  rewrite <- name_in_In. destruct (name_in k names); split; congruence.
Qed.

Lemma dict_get_set (d : dict) (k k' : string) (v : json) :
  dict_get (dict_set d k v) k' = if String.eqb k k' then Some v else dict_get d k'.
Proof.
  induction d as [| [k0 v0] rest IH]; simpl.
  - reflexivity.
  - destruct (String.eqb k0 k) eqn:E0; simpl.
    + apply String.eqb_eq in E0. subst k0.
      destruct (String.eqb k k'); reflexivity.
    + destruct (String.eqb k0 k') eqn:E1.
      * apply String.eqb_eq in E1. subst k0.
        rewrite String.eqb_sym, E0. reflexivity.
      * exact IH.
Qed.

Lemma dict_get_keys (d : dict) (k : string) :
  In k (dict_keys d) <-> exists v, dict_get d k = Some v.
Proof.
  induction d as [| [k0 v0] rest IH]; simpl.
  - split; [contradiction | intros [v H]; discriminate].
  - destruct (String.eqb k0 k) eqn:E.
    + apply String.eqb_eq in E. split; eauto.
    + apply String.eqb_neq in E. rewrite <- IH. tauto.
Qed.

Lemma dict_get_none (d : dict) (k : string) :
  dict_get d k = None <-> ~ In k (dict_keys d).
Proof.
  rewrite dict_get_keys. destruct (dict_get d k) as [v |].
  - split; [discriminate | intros H; exfalso; eauto].
  - split; [intros _ [v H]; discriminate | reflexivity].
Qed.

(** A comprehension none of whose elements raises is a [map]. *)
Lemma comprehension_ok {A B : Type} (f : A -> result B) (g : A -> B) (xs : list A) :
  (forall x, In x xs -> f x = Ok (g x)) -> comprehension f xs = Ok (map g xs).
Proof.
  induction xs as [| x rest IH]; intros H; simpl.
  - reflexivity.
  - rewrite (H x (or_introl eq_refl)). simpl.
    rewrite IH by (intros y Hy; apply H; now right). reflexivity.
Qed.

(** A loop none of whose iterations raises is a [fold_left]. *)
Lemma for_each_ok {A S : Type} (body : S -> A -> result S) (step : S -> A -> S)
  (xs : list A) :
  (forall s x, In x xs -> body s x = Ok (step s x)) ->
  forall s, for_each body xs s = Ok (fold_left step xs s).
Proof.
  induction xs as [| x rest IH]; intros H s; simpl.
  - reflexivity.
  - rewrite (H s x (or_introl eq_refl)). simpl.
    apply IH. intros s' y Hy. apply H. now right.
Qed.

(** ** Frames built from records *)

Lemma add_labels_In (ks seen : list string) (k : string) :
  In k (fold_left add_label ks seen) <-> In k seen \/ In k ks.
Proof.
  revert seen. induction ks as [| k0 rest IH]; intros seen; simpl.
  - tauto.
  - rewrite IH. unfold add_label.
    destruct (name_in k0 seen) eqn:E.
    + apply name_in_In in E. split; [tauto |].
      intros [H | [H | H]]; subst; tauto.
    + rewrite in_app_iff. simpl. tauto.
Qed.

Lemma record_labels_single (r : dict) (k : string) :
  In k (record_labels [r]) <-> In k (dict_keys r).
Proof.
  unfold record_labels. simpl. rewrite add_labels_In. simpl. tauto.
Qed.

Lemma find_column_map (f : string -> Series) (labels : list string) (c : string) :
  In c labels -> find_column (map (fun l => (l, f l)) labels) c = Some (f c).
Proof.
  induction labels as [| l rest IH]; simpl; [contradiction |].
  intros H. destruct (String.eqb l c) eqn:E.
  - apply String.eqb_eq in E. now subst.
  - apply String.eqb_neq in E. destruct H as [H | H]; [contradiction | auto].
Qed.

Lemma find_column_single (r : dict) (c : string) :
  In c (dict_keys r) ->
  find_column (cols (DataFrame_of_records [r])) c = Some [record_cell r c].
Proof.
  intros H. simpl.
  apply (find_column_map (fun l => [record_cell r l])).
  now apply record_labels_single.
Qed.

Lemma row_get_map (g : string -> json) (labels : list string) (c : string) :
  In c labels -> row_get (map (fun l => (l, g l)) labels) c = Some (g c).
Proof.
  induction labels as [| l rest IH]; simpl; [contradiction |].
  intros H. destruct (String.eqb l c) eqn:E.
  - apply String.eqb_eq in E. now subst.
  - apply String.eqb_neq in E. destruct H as [H | H]; [contradiction | auto].
Qed.

(** Reading one label off the gathered row of a one-record frame: the
    record's value, cast to the dtype common to the frame's columns. *)
Lemma iloc0_loc_single (r : dict) (c : string) :
  In c (dict_keys r) ->
  iloc0_loc (DataFrame_of_records [r]) c
  = Ok (astype (frame_dtype (DataFrame_of_records [r])) (record_cell r c)).
Proof.
  intros H. unfold iloc0_loc, iloc0.
  set (t := frame_dtype (DataFrame_of_records [r])).
  simpl. rewrite map_map. simpl. unfold loc.
  rewrite (row_get_map (fun l => astype t (record_cell r l))).
  - reflexivity.
  - now apply record_labels_single.
Qed.

(** ** Column alignment *)

Lemma zero_base_get (expected : list string) (base : dict) (c : string) :
  dict_get (fold_left (fun d col => dict_set d col (JInt 0)) expected base) c
  = if name_in c expected then Some (JInt 0) else dict_get base c.
Proof.
  revert base. induction expected as [| e rest IH]; intros base; simpl.
  - reflexivity.
  - rewrite IH, dict_get_set, (String.eqb_sym e c).
    destruct (String.eqb c e), (name_in c rest); reflexivity.
Qed.

Lemma copy_loop_get (expected : list string) (gathered : string -> json)
  (labels : list string) (base : dict) (c : string) :
  dict_get
    (fold_left (fun b col => if name_in col expected
                             then dict_set b col (gathered col) else b)
               labels base) c
  = if name_in c labels && name_in c expected
    then Some (gathered c) else dict_get base c.
Proof.
  revert base. induction labels as [| l rest IH]; intros base; simpl.
  - reflexivity.
  - rewrite IH. rewrite (String.eqb_sym c l).
    destruct (String.eqb l c) eqn:E.
    + apply String.eqb_eq in E. subst l. simpl.
      destruct (name_in c expected) eqn:Ex.
      * rewrite dict_get_set, String.eqb_refl.
        rewrite andb_true_r. destruct (name_in c rest); reflexivity.
      * rewrite andb_false_r. reflexivity.
    + simpl. destruct (name_in l expected); [| reflexivity].
      rewrite dict_get_set, E. reflexivity.
Qed.

Lemma align_single (expected : list string) (features : dict) :
  align expected (DataFrame_of_records [features]) = Ok (aligned_row expected features).
Proof.
  unfold align.
  set (base0 := fold_left (fun d col => dict_set d col (JInt 0)) expected []).
  set (t := frame_dtype (DataFrame_of_records [features])).
  rewrite (for_each_ok _
             (fun b col => if name_in col expected
                           then dict_set b col (astype t (record_cell features col))
                           else b)).
  2:{ intros b col Hcol. destruct (name_in col expected); [| reflexivity].
      unfold columns in Hcol. simpl in Hcol. rewrite map_map, map_id in Hcol.
      apply record_labels_single in Hcol.
      rewrite iloc0_loc_single by exact Hcol. reflexivity. }
  cbn [bind].
  set (base := fold_left _ (columns (DataFrame_of_records [features])) base0).
  assert (Hbase : forall c, In c expected ->
                    dict_get base c = Some (aligned_cell features c)).
  { intros c Hc. unfold base.
    rewrite (copy_loop_get expected (fun col => astype t (record_cell features col))).
    apply name_in_In in Hc. rewrite Hc, andb_true_r. unfold aligned_cell, record_cell.
    fold t.
    destruct (name_in c (columns (DataFrame_of_records [features]))) eqn:E.
    - apply name_in_In in E. unfold columns in E. simpl in E.
      rewrite map_map, map_id in E. apply record_labels_single in E.
      apply dict_get_keys in E. destruct E as [v Hv]. rewrite Hv. reflexivity.
    - apply name_in_false in E. unfold columns in E. simpl in E.
      rewrite map_map, map_id in E. rewrite record_labels_single in E.
      apply dict_get_none in E. rewrite E.
      unfold base0. rewrite zero_base_get, Hc. reflexivity. }
  unfold getitem_labels.
  rewrite (comprehension_ok _ (fun c => (c, [aligned_cell features c]))).
  - reflexivity.
  - intros c Hc. rewrite find_column_single.
    + unfold record_cell. rewrite (Hbase c Hc). reflexivity.
    + apply dict_get_keys. eauto.
Qed.

(** ** Frames with one cell per column *)

Lemma single_cell_inv (s : Series) :
  Nat.eqb (List.length s) 1 = true -> exists v, s = [v].
Proof.
  intros H. apply Nat.eqb_eq in H.
  destruct s as [| v [| w rest]]; try discriminate. now exists v.
Qed.

Lemma single_cell_of_records (r : dict) :
  single_cell_columns (DataFrame_of_records [r]) = true.
Proof.
  unfold single_cell_columns. simpl. apply forallb_forall.
  intros c Hc. apply in_map_iff in Hc. destruct Hc as [l [Hl _]].
  now subst c.
Qed.

Lemma single_cell_aligned (expected : list string) (features : dict) :
  single_cell_columns (aligned_row expected features) = true.
Proof.
  unfold single_cell_columns. simpl. apply forallb_forall.
  intros c Hc. apply in_map_iff in Hc. destruct Hc as [l [Hl _]].
  now subst c.
Qed.

Lemma fillna_length (s : Series) (v : json) :
  List.length (fillna s v) = List.length s.
Proof. unfold fillna. apply length_map. Qed.

Lemma single_cell_fillna_by_column (df : DataFrame) (fill : dict) :
  single_cell_columns df = true ->
  single_cell_columns (fillna_by_column df fill) = true.
Proof.
  unfold single_cell_columns. simpl.
  rewrite !forallb_forall. intros H c Hc.
  apply in_map_iff in Hc. destruct Hc as [c0 [Hc0 Hin]]. subst c.
  destruct (dict_get fill (fst c0)); simpl.
  - rewrite fillna_length. now apply H.
  - now apply H.
Qed.

Lemma fillna_by_column_nil (df : DataFrame) : fillna_by_column df [] = df.
Proof.
  destruct df as [n cs]. unfold fillna_by_column. simpl.
  now rewrite map_id.
Qed.

Lemma column_alignment_total (a : artifacts) (features : dict) :
  exists df,
    column_alignment a features = Ok df /\
    nrows df = 1%nat /\ single_cell_columns df = true.
Proof.
  unfold column_alignment. destruct (expected_features a) as [expected |].
  - rewrite align_single. eexists.
    repeat split; try reflexivity. apply single_cell_aligned.
  - eexists. repeat split; try reflexivity. apply single_cell_of_records.
Qed.

(** The mean fill never raises: it fills from some dict of values, the
    empty one when the stage is skipped or fails. *)
Lemma mean_imputation_total (a : artifacts) (df : DataFrame) :
  exists fill, mean_imputation a df = Ok (fillna_by_column df fill).
Proof.
  unfold mean_imputation.
  destruct (scaler a) as [[names [mean_at |] tr] |];
    try (exists []; now rewrite fillna_by_column_nil).
  destruct (expected_features a) as [expected |];
    try (exists []; now rewrite fillna_by_column_nil).
  destruct (comprehension _ (enumerate expected)) as [fill_values | e]; simpl.
  - now exists (dict_of_pairs fill_values).
  - exists []. now rewrite fillna_by_column_nil.
Qed.

(** ** The imputation cascade *)

Section HandlerFacts.

Variable pystr : pyexc -> string.
Variable format_exc : pyexc -> string.
Variable median : Series -> json.
Variable mode_values : Series -> Series.

Lemma impute_numeric_single (v : json) :
  impute_numeric_column median [v] = if isnull v then [JFloat (Real 0)] else [v].
Proof.
  unfold impute_numeric_column, series_has_null, dropna, fillna. simpl.
  destruct (isnull v); reflexivity.
Qed.

(** With a single null cell [mode()] is empty, [mode()[0]] raises and the
    handler's [except] branch fills the empty string. *)
Lemma impute_object_single (v : json) :
  impute_object_column mode_values [v] = Ok (if isnull v then [JStr ""] else [v]).
Proof.
  unfold impute_object_column, series_has_null, Series_mode, dropna, fillna. simpl.
  destruct (isnull v); reflexivity.
Qed.

Lemma comprehension_map_ok {A B C : Type} (f : B -> result C) (h : A -> B)
  (g : A -> C) (xs : list A) :
  (forall x, In x xs -> f (h x) = Ok (g x)) ->
  comprehension f (map h xs) = Ok (map g xs).
Proof.
  intros H. rewrite <- (map_map h (fun y => y)), map_id.
  induction xs as [| x rest IH]; simpl; [reflexivity |].
  rewrite (H x (or_introl eq_refl)). simpl.
  rewrite IH by (intros y Hy; apply H; now right). reflexivity.
Qed.

Lemma no_null_degenerate_fill (cs : list (string * Series)) :
  existsb (fun c => series_has_null (snd c)) cs = false ->
  map degenerate_fill cs = cs.
Proof.
  induction cs as [| c rest IH]; simpl; [reflexivity |].
  intros H. apply orb_false_iff in H. destruct H as [Hc Hrest].
  unfold degenerate_fill at 1. rewrite Hc, IH by exact Hrest. reflexivity.
Qed.

(** On a frame with one cell per column the fallback is the degenerate fill. *)
Lemma fallback_single_row (df : DataFrame) :
  single_cell_columns df = true ->
  fallback_imputation median mode_values df = Ok (degenerate_fallback df).
Proof.
  intros Hsingle. unfold fallback_imputation, degenerate_fallback.
  destruct (frame_has_null df) eqn:Hnull.
  - rewrite (comprehension_map_ok _ _ degenerate_fill); [reflexivity |].
    intros [name s] Hin. unfold single_cell_columns in Hsingle.
    rewrite forallb_forall in Hsingle. specialize (Hsingle _ Hin).
    apply single_cell_inv in Hsingle. destruct Hsingle as [v Hv].
    simpl in Hv. subst s. unfold degenerate_fill. simpl.
    rewrite andb_true_r, orb_false_r.
    destruct (is_number v) eqn:Hnum; simpl.
    + rewrite impute_numeric_single.
      destruct (isnull v); simpl; [reflexivity |].
      rewrite Hnum. reflexivity.
    + rewrite Hnum. simpl. rewrite impute_object_single.
      destruct (isnull v); reflexivity.
  - unfold frame_has_null in Hnull.
    rewrite no_null_degenerate_fill by exact Hnull.
    now destruct df.
Qed.

Lemma degenerate_fallback_no_null (df : DataFrame) :
  frame_has_null (degenerate_fallback df) = false.
Proof.
  unfold frame_has_null, degenerate_fallback. simpl.
  induction (cols df) as [| c rest IH]; simpl; [reflexivity |].
  rewrite IH, orb_false_r. unfold degenerate_fill.
  destruct (series_has_null (snd c)) eqn:E; simpl.
  - destruct (numeric_dtype (snd c)); reflexivity.
  - exact E.
Qed.

(** The cascade on the frame the alignment produced. *)
Lemma imputation_single_row (a : artifacts) (df : DataFrame) :
  single_cell_columns df = true ->
  exists fill,
    mean_imputation a df = Ok (fillna_by_column df fill) /\
    imputation median mode_values a df
    = Ok (if frame_has_null df
          then degenerate_fallback (fillna_by_column df fill) else df).
Proof.
  intros Hsingle. destruct (mean_imputation_total a df) as [fill Hfill].
  exists fill. split; [exact Hfill |].
  unfold imputation. destruct (frame_has_null df); [| reflexivity].
  rewrite Hfill. simpl.
  apply fallback_single_row. now apply single_cell_fillna_by_column.
Qed.

(** The frame handed to scaling always exists, has one cell per column and
    holds no null. *)
Lemma data_to_scale_total (a : artifacts) (features : dict) :
  exists df,
    data_to_scale median mode_values a features = Ok df /\
    nrows df = 1%nat /\
    frame_has_null df = false.
Proof.
  destruct (column_alignment_total a features) as [df0 [Halign [Hrows Hsingle]]].
  destruct (imputation_single_row a df0 Hsingle) as [fill [_ Himp]].
  unfold data_to_scale. rewrite Halign. simpl. rewrite Himp.
  destruct (frame_has_null df0) eqn:Hnull; eexists;
    repeat split; auto using degenerate_fallback_no_null.
Qed.

(** C5: for every payload the frame handed to the scaling step exists and
    holds no null cell, and the handler goes on to scale exactly that frame
    (through the scaler when there is one, as raw values otherwise). *)
Theorem no_null_reaches_scaling (a : artifacts) (features : dict) :
  exists df,
    data_to_scale median mode_values a features = Ok df /\
    frame_has_null df = false /\
    predict_default pystr format_exc median mode_values a (JObj features)
    = try_except
        (data_scaled <- match scaler a with
                        | Some s => transform s df
                        | None => Ok (values df)
                        end ;;
         predict_and_respond a data_scaled)
        (fun e => Ok (error_with_trace pystr format_exc e)).
Proof.
  destruct (data_to_scale_total a features) as [df [Hdf [_ Hnull]]].
  exists df. split; [exact Hdf |]. split; [exact Hnull |].
  unfold predict_default. rewrite Hdf. reflexivity.
Qed.

(** With one cell per column, a column that has a null has no non-null
    value, and indexing its (empty) mode raises. *)
Lemma null_column_statistics (s : Series) :
  Nat.eqb (List.length s) 1 = true ->
  series_has_null s = true ->
  dropna s = [] /\ exists e, getitem0 (Series_mode mode_values s) = Raise e.
Proof.
  intros Hone Hnull. apply single_cell_inv in Hone. destruct Hone as [v ->].
  unfold series_has_null in Hnull. simpl in Hnull. rewrite orb_false_r in Hnull.
  unfold Series_mode, dropna. simpl. rewrite Hnull. simpl.
  split; [reflexivity | now eexists].
Qed.

(** C9: the frame the fallback stage receives has one row, so a column that
    is still null has no non-null value (the median is never taken) and its
    mode is empty (indexing it raises); the stage therefore fills a
    still-null numeric column with 0 and a still-null non-numeric column with
    the empty string, and leaves the other columns alone. *)
Theorem fallback_is_degenerate (a : artifacts) (features : dict) :
  exists df0 df1,
    column_alignment a features = Ok df0 /\
    mean_imputation a df0 = Ok df1 /\
    imputation median mode_values a df0
    = (if frame_has_null df0
       then fallback_imputation median mode_values df1 else Ok df0) /\
    nrows df1 = 1%nat /\
    single_cell_columns df1 = true /\
    Forall (fun c => series_has_null (snd c) = true ->
                     dropna (snd c) = [] /\
                     exists e, getitem0 (Series_mode mode_values (snd c)) = Raise e)
           (cols df1) /\
    fallback_imputation median mode_values df1
    = Ok {| nrows := nrows df1;
            cols := map (fun c =>
                           if series_has_null (snd c)
                           then (fst c, [if numeric_dtype (snd c)
                                         then JFloat (Real 0) else JStr ""])
                           else c) (cols df1) |}.
Proof.
  destruct (column_alignment_total a features) as [df0 [Halign [Hrows Hsingle]]].
  destruct (mean_imputation_total a df0) as [fill Hfill].
  exists df0, (fillna_by_column df0 fill).
  assert (Hsingle1 : single_cell_columns (fillna_by_column df0 fill) = true)
    by now apply single_cell_fillna_by_column.
  split; [exact Halign |]. split; [exact Hfill |]. split.
  { unfold imputation. rewrite Hfill. simpl.
    destruct (frame_has_null df0); reflexivity. }
  split; [exact Hrows |]. split; [exact Hsingle1 |]. split.
  - apply Forall_forall. intros c Hc.
    unfold single_cell_columns in Hsingle1.
    rewrite forallb_forall in Hsingle1.
    apply null_column_statistics. now apply Hsingle1.
  - now apply fallback_single_row.
Qed.

(** ** The probability step *)

Lemma probability_step_total (m : Model) (x : ndarray) :
  exists p, probability_step m x = Ok p.
Proof.
  unfold probability_step.
  destruct (predict_proba m) as [proba |]; simpl.
  - destruct (proba x) as [p | e]; simpl; [now eexists |].
    destruct (decision_function m) as [decision |]; simpl; [| now eexists].
    destruct (decision x); simpl; now eexists.
  - destruct (decision_function m) as [decision |]; simpl; [| now eexists].
    destruct (decision x); simpl; now eexists.
Qed.

(** The three ways the step ends: the class-probability answer, the
    logistic transform of the decision score, or [None]. *)
Lemma probability_step_cases (m : Model) (x : ndarray) :
  (exists proba p, predict_proba m = Some proba /\ proba x = Ok p /\
                   probability_step m x = Ok (Some p)) \/
  ((predict_proba m = None \/
    exists proba e, predict_proba m = Some proba /\ proba x = Raise e) /\
   ((exists decision score,
        decision_function m = Some decision /\ decision x = Ok score /\
        probability_step m x = Ok (Some (sigmoid score))) \/
    ((decision_function m = None \/
      exists decision e, decision_function m = Some decision /\ decision x = Raise e) /\
     probability_step m x = Ok None))).
Proof.
  unfold probability_step.
  destruct (predict_proba m) as [proba |]; simpl.
  - destruct (proba x) as [p | e] eqn:Hp; simpl.
    + left. now exists proba, p.
    + right. split; [right; now exists proba, e |].
      destruct (decision_function m) as [decision |]; simpl.
      * destruct (decision x) as [score | e'] eqn:Hd; simpl.
        -- left. now exists decision, score.
        -- right. split; [right; now exists decision, e' | reflexivity].
      * right. split; [now left | reflexivity].
  - right. split; [now left |].
    destruct (decision_function m) as [decision |]; simpl.
    + destruct (decision x) as [score | e'] eqn:Hd; simpl.
      * left. now exists decision, score.
      * right. split; [right; now exists decision, e' | reflexivity].
    + right. split; [now left | reflexivity].
Qed.

(** What the handler returns once the label is known. *)
Lemma predict_default_prediction (a : artifacts) (m : Model) (features : dict)
  (df : DataFrame) (x : ndarray) (prediction : Z) (probability : option pyfloat) :
  model a = Some m ->
  data_to_scale median mode_values a features = Ok df ->
  scaling a df = Ok x ->
  predict m x = Ok prediction ->
  probability_step m x = Ok probability ->
  predict_default pystr format_exc median mode_values a (JObj features)
  = Ok (prediction_result prediction probability).
Proof.
  intros Hm Hdf Hx Hp Hprob.
  unfold predict_default, predict_and_respond.
  rewrite Hdf. cbn -[scaling probability_step]. rewrite Hx, Hm.
  cbn -[probability_step]. rewrite Hp. cbn -[probability_step].
  rewrite Hprob. reflexivity.
Qed.

(** C6: once the label is known, the dict the handler returns carries as
    [default_probability] the class-probability method's answer when that
    method exists and returns; else the logistic transform of the decision
    score when that method exists and returns; it is null exactly when each
    method is missing or raises.  Whatever the two methods do, the handler
    returns the prediction dict, and the response is a 200 with that dict
    whenever the probability encodes as JSON (it is null or finite). *)
Theorem probability_fallback_order (a : artifacts) (m : Model)
  (members : list (string * json)) (df : DataFrame) (x : ndarray) (prediction : Z) :
  model a = Some m ->
  data_to_scale median mode_values a (dict_of_pairs members) = Ok df ->
  scaling a df = Ok x ->
  predict m x = Ok prediction ->
  exists probability,
    predict_default pystr format_exc median mode_values a
      (JObj (dict_of_pairs members))
    = Ok (JObj [("default_prediction", JInt prediction);
                ("default_probability", probability)]) /\
    (encodable probability = true ->
     predict_endpoint pystr format_exc median mode_values a (JObj members)
     = {| status := 200;
          body := JObj [("default_prediction", JInt prediction);
                        ("default_probability", probability)] |}) /\
    (forall proba p,
        predict_proba m = Some proba -> proba x = Ok p -> probability = JFloat p) /\
    (forall decision score,
        (predict_proba m = None \/
         exists proba e, predict_proba m = Some proba /\ proba x = Raise e) ->
        decision_function m = Some decision -> decision x = Ok score ->
        probability = JFloat (sigmoid score)) /\
    (forall r, sigmoid (Real r) = Real (1 / (1 + exp (- r)))) /\
    (probability = JNull <->
     (predict_proba m = None \/
      exists proba e, predict_proba m = Some proba /\ proba x = Raise e) /\
     (decision_function m = None \/
      exists decision e, decision_function m = Some decision /\ decision x = Raise e)).
Proof.
  intros Hm Hdf Hx Hp.
  destruct (probability_step_total m x) as [prob Hprob].
  pose proof (predict_default_prediction a m _ df x prediction prob
                Hm Hdf Hx Hp Hprob) as Hret.
  exists (json_of_probability prob).
  split; [exact Hret |]. split.
  { intros Henc. unfold predict_endpoint, AnyDict_validate. rewrite Hret.
    unfold respond, prediction_result. simpl. simpl in Henc.
    rewrite Henc. reflexivity. }
  destruct (probability_step_cases m x)
    as [[proba [p [Ha [Hc Hs]]]]
       | [Hno [[decision [score [Ha [Hc Hs]]]] | [Hnd Hs]]]];
    rewrite Hs in Hprob; injection Hprob as <-; simpl.
  - split; [| split; [| split]].
    + intros proba' p' Ha' Hc'. congruence.
    + intros decision score [Hnone | [proba' [e [Ha' Hr]]]] _ _; congruence.
    + reflexivity.
    + split; [discriminate |].
      intros [[Hnone | [proba' [e [Ha' Hr]]]] _]; congruence.
  - split; [| split; [| split]].
    + intros proba p Ha' Hc'.
      destruct Hno as [Hnone | [proba' [e [Ha'' Hr]]]]; congruence.
    + intros decision' score' _ Ha' Hc'. congruence.
    + reflexivity.
    + split; [discriminate |].
      intros [_ [Hnone | [decision' [e [Ha' Hr]]]]]; congruence.
  - split; [| split; [| split]].
    + intros proba p Ha' Hc'.
      destruct Hno as [Hnone | [proba' [e [Ha'' Hr]]]]; congruence.
    + intros decision score _ Ha' Hc'.
      destruct Hnd as [Hnone | [decision' [e [Ha'' Hr]]]]; congruence.
    + reflexivity.
    + split; [now intros _ | reflexivity].
Qed.

(** ** The handler as a whole *)

Lemma predict_and_respond_shape (a : artifacts) (x : ndarray) (b : json) :
  predict_and_respond a x = Ok b ->
  (exists prediction probability, b = prediction_result prediction probability) \/
  b = model_not_loaded.
Proof.
  unfold predict_and_respond. destruct (model a) as [m |].
  - destruct (predict m x) as [prediction | e]; simpl; [| discriminate].
    destruct (probability_step_total m x) as [p Hp]. rewrite Hp. simpl.
    intros H. injection H as <-. left. now exists prediction, p.
  - intros H. injection H as <-. now right.
Qed.

(** The handler always returns one of its three dicts. *)
Lemma predict_default_returns (a : artifacts) (features : dict) :
  exists b,
    predict_default pystr format_exc median mode_values a (JObj features) = Ok b /\
    ((exists prediction probability, b = prediction_result prediction probability) \/
     (exists e, b = error_with_trace pystr format_exc e) \/
     b = model_not_loaded).
Proof.
  unfold predict_default.
  destruct (data_to_scale_total a features) as [df [Hdf _]].
  rewrite Hdf. cbn -[scaling].
  destruct (scaling a df) as [x | e]; cbn.
  - destruct (predict_and_respond a x) as [b | e] eqn:Hb; cbn.
    + exists b. split; [reflexivity |].
      destruct (predict_and_respond_shape a x b Hb) as [H | H]; tauto.
    + eexists. split; [reflexivity |]. right. left. now exists e.
  - eexists. split; [reflexivity |]. right. left. now exists e.
Qed.

Lemma prediction_result_encodable (prediction : Z) (probability : option pyfloat) :
  encodable (prediction_result prediction probability) = false
  <-> exists f, probability = Some f /\ finite f = false.
Proof.
  unfold prediction_result. simpl.
  destruct probability as [f |]; simpl; rewrite ?andb_true_r; split.
  - intros H. now exists f.
  - intros [f' [H1 H2]]. congruence.
  - discriminate.
  - intros [f' [H1 _]]. discriminate H1.
Qed.

Lemma finite_probability_encodable (prediction : Z) (probability : option pyfloat) :
  (forall f, probability = Some f -> finite f = true) ->
  encodable (prediction_result prediction probability) = true.
Proof.
  intros Hfin.
  destruct (encodable (prediction_result prediction probability)) eqn:E;
    [reflexivity |].
  apply prediction_result_encodable in E. destruct E as [f [H1 H2]].
  rewrite (Hfin f H1) in H2. discriminate H2.
Qed.

(** C3: for every JSON-object payload the handler returns (it does not
    raise) a prediction result, an error with a trace, or a bare error; the
    response is a 200 with that dict when the dict encodes as JSON and a
    500 otherwise, and it fails to encode exactly when the probability is
    a float that is not finite, as it is for a model whose class probability
    is NaN. *)
Theorem predict_returns_but_may_not_encode (a : artifacts)
  (members : list (string * json)) :
  (exists b,
     predict_default pystr format_exc median mode_values a
       (JObj (dict_of_pairs members)) = Ok b /\
     (PredictionResult_shape b \/ error_trace_shape b \/ error_only_shape b) /\
     predict_endpoint pystr format_exc median mode_values a (JObj members)
     = (if encodable b
        then {| status := 200; body := b |}
        else {| status := 500; body := JStr "Internal Server Error" |}) /\
     (encodable b = false <->
      exists prediction f,
        b = prediction_result prediction (Some f) /\ finite f = false)) /\
  predict_endpoint pystr format_exc median mode_values
    {| model := Some nan_model; scaler := None |} (JObj [])
  = {| status := 500; body := JStr "Internal Server Error" |}.
Proof.
  split; [| reflexivity].
  destruct (predict_default_returns a (dict_of_pairs members)) as [b [Hb Hshape]].
  exists b. split; [exact Hb |].
  unfold predict_endpoint, AnyDict_validate. rewrite Hb. cbn [respond].
  destruct Hshape as [[prediction [prob ->]] | [[e ->] | ->]].
  - split; [| split; [reflexivity |]].
    + left. exists prediction, (json_of_probability prob).
      split; [reflexivity |]. destruct prob; simpl; eauto.
    + rewrite prediction_result_encodable. split.
      * intros [f [-> Hf]]. now exists prediction, f.
      * intros [prediction' [f [H Hf]]]. unfold prediction_result in H.
        injection H as _ H. exists f. split; [| exact Hf].
        destruct prob as [f' |]; simpl in H; congruence.
  - split; [| split; [reflexivity |]].
    + right. left. do 2 eexists. reflexivity.
    + split; [discriminate |]. intros [prediction [f [H _]]]. discriminate H.
  - split; [| split; [reflexivity |]].
    + right. right. now exists "model not loaded".
    + split; [discriminate |]. intros [prediction [f [H _]]]. discriminate H.
Qed.

(** C7: when the model failed to load at start-up, every JSON-object
    payload is answered with status 200 and the body
    [{"error": "model not loaded"}]. *)
Theorem model_absent_response (e : pyexc) (load_scaler : result Scaler)
  (members : list (string * json)) :
  predict_endpoint pystr format_exc median mode_values
    (startup (Raise e) load_scaler) (JObj members)
  = {| status := 200; body := JObj [("error", JStr "model not loaded")] |}.
Proof.
  unfold predict_endpoint, AnyDict_validate, predict_default. simpl startup.
  destruct (data_to_scale_total {| model := None; scaler := None |}
              (dict_of_pairs members)) as [df [Hdf _]].
  rewrite Hdf. reflexivity.
Qed.

(** C8 (amended): with the scaler absent and the model present, the model
    is asked about the raw values of the imputed row, with no scaling.
    When [predict] returns on them the handler returns that label with the
    probability computed from the same raw values, and the response is a
    200 carrying both whenever the probability is null or finite; when
    [predict] raises,
    the response is a 200 carrying that exception's message and trace. *)
Theorem unscaled_prediction (m : Model) (members : list (string * json)) :
  exists df,
    data_to_scale median mode_values {| model := Some m; scaler := None |}
      (dict_of_pairs members) = Ok df /\
    (forall prediction, predict m (values df) = Ok prediction ->
       exists probability,
         probability_step m (values df) = Ok probability /\
         predict_default pystr format_exc median mode_values
           {| model := Some m; scaler := None |} (JObj (dict_of_pairs members))
         = Ok (prediction_result prediction probability) /\
         ((forall f, probability = Some f -> finite f = true) ->
          predict_endpoint pystr format_exc median mode_values
            {| model := Some m; scaler := None |} (JObj members)
          = {| status := 200;
               body := prediction_result prediction probability |})) /\
    (forall e, predict m (values df) = Raise e ->
       predict_endpoint pystr format_exc median mode_values
         {| model := Some m; scaler := None |} (JObj members)
       = {| status := 200; body := error_with_trace pystr format_exc e |}).
Proof.
  destruct (data_to_scale_total {| model := Some m; scaler := None |}
              (dict_of_pairs members)) as [df [Hdf _]].
  exists df. split; [exact Hdf |]. split.
  - intros prediction Hp.
    destruct (probability_step_total m (values df)) as [prob Hprob].
    exists prob. split; [exact Hprob |].
    pose proof (predict_default_prediction
                  {| model := Some m; scaler := None |} m _ df (values df)
                  prediction prob eq_refl Hdf eq_refl Hp Hprob) as Hret.
    split; [exact Hret |].
    intros Hfin. unfold predict_endpoint, AnyDict_validate. rewrite Hret.
    cbn [respond].
    now rewrite (finite_probability_encodable prediction prob Hfin).
  - intros e Hraise.
    unfold predict_endpoint, AnyDict_validate, predict_default,
      predict_and_respond, scaling.
    rewrite Hdf. cbn -[values]. rewrite Hraise. reflexivity.
Qed.


(** ** Payload keys and the aligned row *)

Lemma astype_same_cast (t u : dtype) (v : json) :
  dtype_eqb t float64 = dtype_eqb u float64 -> astype t v = astype u v.
Proof. destruct t, u, v; simpl; intros H; congruence. Qed.

(** Two payloads that agree on the expected names and are gathered alike
    (both as float64, or neither) have the same aligned row. *)
Lemma aligned_row_ext (expected : list string) (f1 f2 : dict) :
  (forall c, In c expected -> dict_get f1 c = dict_get f2 c) ->
  dtype_eqb (frame_dtype (DataFrame_of_records [f1])) float64
  = dtype_eqb (frame_dtype (DataFrame_of_records [f2])) float64 ->
  aligned_row expected f1 = aligned_row expected f2.
Proof.
  intros H Hdtype. unfold aligned_row. f_equal.
  apply map_ext_in. intros c Hc. unfold aligned_cell.
  rewrite (H c Hc). destruct (dict_get f2 c); [| reflexivity].
  now rewrite (astype_same_cast _ _ _ Hdtype).
Qed.

(** C1 (amended): in the scenario the absent feature debt reaches scaling at
    its alignment default 0, whatever the scaler's stored means are: no cell
    is null after alignment, so no imputation stage runs. *)
Theorem absent_feature_stays_zero (means : option (nat -> result pyfloat))
  (tr : DataFrame -> result ndarray) (m : option Model) :
  data_to_scale median mode_values
    {| model := m;
       scaler := Some {| scaler_feature_names_in_ := Some ["income"; "age"; "debt"];
                         mean_ := means;
                         transform := tr |} |}
    (dict_of_pairs [("income", JInt 50000); ("age", JInt 35)])
  = Ok {| nrows := 1;
          cols := [("income", [JInt 50000]); ("age", [JInt 35]);
                   ("debt", [JInt 0])] |}.
Proof.
  unfold data_to_scale, column_alignment. cbn [expected_features scaler].
  rewrite align_single. reflexivity.
Qed.

End HandlerFacts.

(** ** Worked examples *)

(** A repeated member name keeps its first position and its last value. *)
Example repeated_member_last_wins :
  dict_of_pairs [("a", JInt 1); ("b", JInt 2); ("a", JInt 3)]
  = [("a", JInt 3); ("b", JInt 2)].
Proof. reflexivity. Qed.

(** The empty payload gives a frame of one row and no column. *)
Example empty_payload_frame :
  DataFrame_of_records [dict_of_pairs []] = {| nrows := 1; cols := [] |} /\
  values (DataFrame_of_records [dict_of_pairs []]) = [[]].
Proof. split; reflexivity. Qed.

(** A feature sent as an explicit null, unlike an absent one, is filled with
    the scaler's stored mean. *)
Example explicit_null_gets_mean :
  data_to_scale median_of_one modes_of_one scenario_artifacts
    (dict_of_pairs [("income", JInt 50000); ("age", JInt 35); ("debt", JNull)])
  = Ok {| nrows := 1;
          cols := [("income", [JInt 50000]); ("age", [JInt 35]);
                   ("debt", [JFloat (Real 1200)])] |}.
Proof. reflexivity. Qed.

(** Without a scaler a NaN cell becomes 0 and a null cell the empty string. *)
Example fallback_without_scaler :
  data_to_scale median_of_one modes_of_one
    {| model := Some constant_model; scaler := None |}
    (dict_of_pairs [("x", JFloat NaN); ("y", JNull); ("z", JStr "a")])
  = Ok {| nrows := 1;
          cols := [("x", [JFloat (Real 0)]); ("y", [JStr ""]); ("z", [JStr "a"])] |}.
Proof. reflexivity. Qed.

(** The logistic transform of a zero score is one half. *)
Example sigmoid_of_zero : sigmoid (Real 0) = Real (1 / 2).
Proof.
  unfold sigmoid. f_equal. rewrite Ropp_0, exp_0. lra.
Qed.

(** The scenario's request end to end: label 1 and probability one half. *)
Example scenario_response :
  predict_endpoint str_of_exc trace_of_exc median_of_one modes_of_one
    scenario_artifacts (JObj scenario_payload)
  = {| status := 200;
       body := JObj [("default_prediction", JInt 1);
                     ("default_probability", JFloat (sigmoid (Real 0)))] |}.
Proof. reflexivity. Qed.


(** C1, as stated, fails: in the scenario the debt cell that reaches scaling
    is the alignment default 0, not the stored mean 1200. *)
Lemma scenario_debt_is_not_mean :
  exists df,
    data_to_scale median_of_one modes_of_one scenario_artifacts
      (dict_of_pairs scenario_payload) = Ok df /\
    find_column (cols df) "debt" = Some [JInt 0] /\
    df <> {| nrows := 1;
             cols := [("income", [JInt 50000]); ("age", [JInt 35]);
                      ("debt", [JFloat (Real 1200)])] |} /\
    df <> {| nrows := 1;
             cols := [("income", [JInt 50000]); ("age", [JInt 35]);
                      ("debt", [JInt 1200])] |}.
Proof.
  eexists. split; [reflexivity |]. split; [reflexivity |].
  split; intros H; discriminate H.
Qed.

(** C4, at a payload of one large and one small integer: the two columns
    are uint64 and int64, the row is gathered as float64, and the aligned
    value of income is 2^63, not the payload's 2^63 + 1. *)
Theorem alignment_rounds_large_integer :
  expected_features {| model := Some income_age_model; scaler := None |}
  = Some ["income"; "age"] /\
  column_alignment {| model := Some income_age_model; scaler := None |}
    (dict_of_pairs [("income", JInt 9223372036854775809); ("age", JInt 35)])
  = Ok {| nrows := 1;
          cols := [("income", [JFloat (Real (IZR 9223372036854775808))]);
                   ("age", [JFloat (Real 35)])] |} /\
  IZR 9223372036854775808 <> IZR 9223372036854775809.
Proof.
  split; [reflexivity |]. split; [reflexivity |].
  intros H. apply eq_IZR in H. discriminate H.
Qed.

(** C6 at the scenario's artifacts, whose model offers a decision score
    only: the probability is the logistic transform of that score. *)
Lemma probability_fallback_order_witness :
  model scenario_artifacts = Some constant_model /\
  data_to_scale median_of_one modes_of_one scenario_artifacts
    (dict_of_pairs scenario_payload)
  = Ok {| nrows := 1;
          cols := [("income", [JInt 50000]); ("age", [JInt 35]); ("debt", [JInt 0])] |} /\
  predict constant_model [[JInt 50000; JInt 35; JInt 0]] = Ok 1 /\
  exists probability,
    predict_default str_of_exc trace_of_exc median_of_one modes_of_one
      scenario_artifacts (JObj (dict_of_pairs scenario_payload))
    = Ok (JObj [("default_prediction", JInt 1);
                ("default_probability", probability)]) /\
    probability = JFloat (sigmoid (Real 0)).
Proof.
  split; [reflexivity |]. split; [reflexivity |]. split; [reflexivity |].
  destruct (probability_fallback_order str_of_exc trace_of_exc
              median_of_one modes_of_one scenario_artifacts constant_model
              scenario_payload
              {| nrows := 1;
                 cols := [("income", [JInt 50000]); ("age", [JInt 35]);
                          ("debt", [JInt 0])] |}
              [[JInt 50000; JInt 35; JInt 0]] 1
              eq_refl eq_refl eq_refl eq_refl)
    as [probability [Hret [_ [_ [Hdecision _]]]]].
  exists probability. split; [exact Hret |].
  apply (Hdecision (fun _ => Ok (Real 0)) (Real 0));
    [now left | reflexivity | reflexivity].
Defined.

(** C8, as stated, fails: with the scaler absent and a model whose [predict]
    rejects the raw row, the response is an error body, not a prediction. *)
Lemma rejecting_model_gets_error_body :
  predict_endpoint str_of_exc trace_of_exc median_of_one modes_of_one
    {| model := Some rejecting_model; scaler := None |}
    (JObj [("income", JStr "abc")])
  = {| status := 200;
       body := JObj [("error", JStr "could not convert string to float: 'abc'");
                     ("trace", JStr (trace_of_exc
                                       (PyError "ValueError"
                                          "could not convert string to float: 'abc'")))] |} /\
  ~ PredictionResult_shape
      (body (predict_endpoint str_of_exc trace_of_exc median_of_one modes_of_one
               {| model := Some rejecting_model; scaler := None |}
               (JObj [("income", JStr "abc")]))).
Proof.
  split; [reflexivity |].
  intros [prediction [probability [H _]]]. discriminate H.
Qed.

(** C10, at two payloads that agree on the one expected name and differ in
    a key outside the schema: the extra float makes pandas gather the row
    as float64, the large integer is rounded, and a model that looks at its
    parity answers differently. *)
Theorem extra_float_key_changes_response :
  expected_features {| model := Some parity_model; scaler := None |} = Some ["a"] /\
  dict_get (dict_of_pairs [("a", JInt 9007199254740993)]) "a"
  = dict_get (dict_of_pairs [("a", JInt 9007199254740993);
                             ("rate", JFloat (Real (1 / 2)))]) "a" /\
  data_to_scale median_of_one modes_of_one
    {| model := Some parity_model; scaler := None |}
    (dict_of_pairs [("a", JInt 9007199254740993)])
  = Ok {| nrows := 1; cols := [("a", [JInt 9007199254740993])] |} /\
  data_to_scale median_of_one modes_of_one
    {| model := Some parity_model; scaler := None |}
    (dict_of_pairs [("a", JInt 9007199254740993); ("rate", JFloat (Real (1 / 2)))])
  = Ok {| nrows := 1;
          cols := [("a", [JFloat (Real (IZR 9007199254740992))])] |} /\
  predict_endpoint str_of_exc trace_of_exc median_of_one modes_of_one
    {| model := Some parity_model; scaler := None |}
    (JObj [("a", JInt 9007199254740993)])
  = {| status := 200;
       body := JObj [("default_prediction", JInt 1);
                     ("default_probability", JNull)] |} /\
  predict_endpoint str_of_exc trace_of_exc median_of_one modes_of_one
    {| model := Some parity_model; scaler := None |}
    (JObj [("a", JInt 9007199254740993); ("rate", JFloat (Real (1 / 2)))])
  = {| status := 200;
       body := JObj [("default_prediction", JInt 0);
                     ("default_probability", JNull)] |}.
Proof.
  repeat split; reflexivity.
Qed.

(** * Further properties of the service *)

Local Open Scope list_scope.

(** ** Dictionaries with distinct keys *)

Lemma dict_set_fresh (d : dict) (k : string) (v : json) :
  ~ In k (dict_keys d) -> dict_set d k v = d ++ [(k, v)].
Proof.
  induction d as [| [k0 v0] rest IH]; simpl; intros Hfresh.
  - reflexivity.
  - destruct (String.eqb k0 k) eqn:E.
    + apply String.eqb_eq in E. tauto.
    + rewrite IH by tauto. reflexivity.
Qed.

Lemma dict_set_keys (d : dict) (k : string) (v : json) :
  dict_keys (dict_set d k v)
  = if name_in k (dict_keys d) then dict_keys d else dict_keys d ++ [k].
Proof.
  induction d as [| [k0 v0] rest IH]; simpl.
  - reflexivity.
  - rewrite (String.eqb_sym k k0). destruct (String.eqb k0 k) eqn:E; simpl.
    + reflexivity.
    + rewrite IH. destruct (name_in k (dict_keys rest)); reflexivity.
Qed.

Lemma dict_set_nodup (d : dict) (k : string) (v : json) :
  NoDup (dict_keys d) -> NoDup (dict_keys (dict_set d k v)).
Proof.
  intros Hd. rewrite dict_set_keys.
  destruct (name_in k (dict_keys d)) eqn:E; [exact Hd |].
  apply name_in_false in E.
  apply NoDup_app; [exact Hd | repeat constructor; intros [] | ].
  intros x Hx [Hk | []]. now subst x.
Qed.

(** The dict decoded from a JSON object has distinct keys. *)
Lemma dict_of_pairs_nodup (kvs : list (string * json)) :
  NoDup (dict_keys (dict_of_pairs kvs)).
Proof.
  unfold dict_of_pairs.
  assert (H : forall acc, NoDup (dict_keys acc) ->
            NoDup (dict_keys (fold_left (fun d kv => dict_set d (fst kv) (snd kv))
                                        kvs acc))).
  { induction kvs as [| kv rest IH]; intros acc Hacc; simpl.
    - exact Hacc.
    - apply IH. now apply dict_set_nodup. }
  apply H. constructor.
Qed.

Lemma dict_of_pairs_app (kvs : list (string * json)) (k : string) (v : json) :
  dict_of_pairs (kvs ++ [(k, v)]) = dict_set (dict_of_pairs kvs) k v.
Proof. unfold dict_of_pairs. rewrite fold_left_app. reflexivity. Qed.

(** Members with distinct names decode to themselves. *)
Lemma dict_of_pairs_distinct (kvs : list (string * json)) :
  NoDup (map fst kvs) -> dict_of_pairs kvs = kvs.
Proof.
  unfold dict_of_pairs.
  assert (H : forall acc, NoDup (map fst (acc ++ kvs)) ->
            fold_left (fun d kv => dict_set d (fst kv) (snd kv)) kvs acc
            = acc ++ kvs).
  { induction kvs as [| [k v] rest IH]; intros acc Hnd; simpl.
    - now rewrite app_nil_r.
    - rewrite dict_set_fresh.
      + rewrite IH; rewrite <- app_assoc; [reflexivity | exact Hnd].
      + rewrite map_app in Hnd. simpl in Hnd.
        apply NoDup_remove_2 in Hnd. intros Hin. apply Hnd.
        apply in_or_app. now left. }
  intros Hnd. apply (H []). exact Hnd.
Qed.

Lemma dict_get_in_distinct (d : dict) (k : string) (v : json) :
  NoDup (dict_keys d) -> In (k, v) d -> dict_get d k = Some v.
Proof.
  induction d as [| [k0 v0] rest IH]; simpl; intros Hnd Hin; [contradiction |].
  inversion Hnd as [| x l Hnotin Hrest]; subst.
  destruct Hin as [Heq | Hin].
  - injection Heq as -> ->. now rewrite String.eqb_refl.
  - destruct (String.eqb k0 k) eqn:E.
    + apply String.eqb_eq in E. subst k0. exfalso. apply Hnotin.
      change k with (fst (k, v)). now apply in_map.
    + now apply IH.
Qed.

(** With distinct keys a lookup does not depend on the order of the items. *)
Lemma dict_get_permutation (d1 d2 : dict) (k : string) :
  NoDup (dict_keys d1) -> Permutation d1 d2 -> dict_get d1 k = dict_get d2 k.
Proof.
  intros Hnd Hperm.
  assert (Hnd2 : NoDup (dict_keys d2)).
  { apply (Permutation_NoDup (l := dict_keys d1)); [| exact Hnd].
    now apply Permutation_map. }
  destruct (dict_get d2 k) as [v |] eqn:E2.
  - assert (Hin : In (k, v) d2).
    { clear - E2. induction d2 as [| [k0 v0] rest IH]; simpl in *; [discriminate |].
      destruct (String.eqb k0 k) eqn:E.
      - apply String.eqb_eq in E. injection E2 as ->. subst. now left.
      - right. now apply IH. }
    apply dict_get_in_distinct; [exact Hnd |].
    apply (Permutation_in (l := d2)); [now apply Permutation_sym | exact Hin].
  - apply dict_get_none. apply dict_get_none in E2. intros Hin. apply E2.
    apply (Permutation_in (l := dict_keys d1)); [| exact Hin].
    now apply Permutation_map.
Qed.

(** ** [enumerate] *)

Lemma combine_seq_snd {A : Type} (xs : list A) (start : nat) :
  map snd (combine (seq start (List.length xs)) xs) = xs.
Proof.
  revert start. induction xs as [| x rest IH]; intros start; simpl.
  - reflexivity.
  - now rewrite IH.
Qed.

Lemma combine_seq_bound {A : Type} (xs : list A) (start j : nat) (c : A) :
  In (j, c) (combine (seq start (List.length xs)) xs) ->
  (start <= j < start + List.length xs)%nat.
Proof.
  revert start. induction xs as [| x rest IH]; intros start; simpl.
  - contradiction.
  - intros [Heq | Hin].
    + injection Heq as <- _. lia.
    + apply IH in Hin. lia.
Qed.

Lemma combine_seq_nth {A : Type} (xs : list A) (start j : nat) (d : A) :
  (j < List.length xs)%nat ->
  In ((start + j)%nat, nth j xs d) (combine (seq start (List.length xs)) xs).
Proof.
  revert start j. induction xs as [| x rest IH]; intros start j Hj; simpl in *.
  - lia.
  - destruct j as [| j'].
    + left. now rewrite Nat.add_0_r.
    + right. replace (start + S j')%nat with (S start + j')%nat by lia.
      apply IH. lia.
Qed.

Lemma enumerate_snd {A : Type} (xs : list A) : map snd (enumerate xs) = xs.
Proof. apply combine_seq_snd. Qed.

Lemma enumerate_bound {A : Type} (xs : list A) (j : nat) (c : A) :
  In (j, c) (enumerate xs) -> (j < List.length xs)%nat.
Proof. intros H. apply combine_seq_bound in H. lia. Qed.

Lemma enumerate_nth {A : Type} (xs : list A) (j : nat) (d : A) :
  (j < List.length xs)%nat -> In (j, nth j xs d) (enumerate xs).
Proof. intros H. apply (combine_seq_nth xs 0 j d H). Qed.

(** A comprehension one of whose elements raises, raises. *)
Lemma comprehension_raises {A B : Type} (f : A -> result B) (xs : list A)
  (x : A) (e : pyexc) :
  In x xs -> f x = Raise e -> exists e', comprehension f xs = Raise e'.
Proof.
  induction xs as [| y rest IH]; simpl; intros Hin Hraise; [contradiction |].
  destruct (f y) as [b | e0] eqn:Ey; simpl; [| now eexists].
  destruct Hin as [-> | Hin]; [congruence |].
  destruct (IH Hin Hraise) as [e' He']. rewrite He'. simpl. now eexists.
Qed.

(** ** Frames and the cascade, cell by cell *)

Lemma add_labels_distinct (ks seen : list string) :
  NoDup (seen ++ ks) -> fold_left add_label ks seen = seen ++ ks.
Proof.
  revert seen. induction ks as [| k rest IH]; intros seen Hnd; simpl.
  - now rewrite app_nil_r.
  - unfold add_label at 2.
    assert (Hfresh : name_in k seen = false).
    { apply name_in_false. intros Hin. apply NoDup_remove_2 in Hnd.
      apply Hnd. apply in_or_app. now left. }
    rewrite Hfresh, IH; rewrite <- app_assoc; [reflexivity | exact Hnd].
Qed.

(** The frame of one record with distinct keys: its items, in order. *)
Lemma frame_of_distinct_record (d : dict) :
  NoDup (dict_keys d) ->
  DataFrame_of_records [d]
  = {| nrows := 1; cols := map (fun kv => (fst kv, [snd kv])) d |}.
Proof.
  intros Hnd. unfold DataFrame_of_records, record_labels. simpl.
  rewrite (add_labels_distinct (dict_keys d) []) by exact Hnd. simpl.
  f_equal. unfold dict_keys. rewrite map_map.
  apply map_ext_in. intros [k v] Hin. simpl. unfold record_cell.
  now rewrite (dict_get_in_distinct d k v Hnd Hin).
Qed.

Lemma fallback_cell_non_null (v : json) : isnull v = false -> fallback_cell v = v.
Proof. destruct v as [| | | [| | |] | | |]; simpl; intros H; congruence. Qed.

Lemma degenerate_fill_cell (c : string) (v : json) :
  degenerate_fill (c, [v]) = (c, [fallback_cell v]).
Proof.
  unfold degenerate_fill, series_has_null, numeric_dtype. simpl.
  destruct v as [| | | [| | |] | | |]; reflexivity.
Qed.

Lemma degenerate_fallback_cells {A : Type} (label : A -> string) (cell : A -> json)
  (xs : list A) (n : nat) :
  degenerate_fallback {| nrows := n; cols := map (fun x => (label x, [cell x])) xs |}
  = {| nrows := n; cols := map (fun x => (label x, [fallback_cell (cell x)])) xs |}.
Proof.
  unfold degenerate_fallback. simpl. f_equal. rewrite map_map.
  apply map_ext. intros x. apply degenerate_fill_cell.
Qed.

Lemma fillna_no_null (s : Series) (v : json) :
  series_has_null s = false -> fillna s v = s.
Proof.
  unfold series_has_null, fillna. induction s as [| x rest IH]; simpl.
  - reflexivity.
  - intros H. apply orb_false_iff in H. destruct H as [Hx Hrest].
    now rewrite Hx, IH.
Qed.

Lemma fillna_by_column_no_null (df : DataFrame) (fill : dict) :
  frame_has_null df = false -> fillna_by_column df fill = df.
Proof.
  destruct df as [n cs]. unfold frame_has_null, fillna_by_column. simpl.
  intros H. f_equal.
  induction cs as [| c rest IH]; simpl in *; [reflexivity |].
  apply orb_false_iff in H. destruct H as [Hc Hrest].
  rewrite IH by exact Hrest.
  destruct (dict_get fill (fst c)); [| reflexivity].
  rewrite fillna_no_null by exact Hc. now destruct c.
Qed.

Lemma degenerate_fallback_no_op (df : DataFrame) :
  frame_has_null df = false -> degenerate_fallback df = df.
Proof.
  destruct df as [n cs]. unfold frame_has_null, degenerate_fallback. simpl.
  intros H. f_equal.
  induction cs as [| c rest IH]; simpl in *; [reflexivity |].
  apply orb_false_iff in H. destruct H as [Hc Hrest].
  rewrite IH by exact Hrest. unfold degenerate_fill. now rewrite Hc.
Qed.

Lemma find_column_map_cols (g : string * Series -> string * Series)
  (cs : list (string * Series)) (c : string) :
  (forall x, fst (g x) = fst x) ->
  find_column (map g cs) c
  = match find_column cs c with
    | Some s => Some (snd (g (c, s)))
    | None => None
    end.
Proof.
  intros Hg. induction cs as [| [c0 s0] rest IH]; simpl; [reflexivity |].
  specialize (Hg (c0, s0)) as Hfst. destruct (g (c0, s0)) as [c1 s1] eqn:Eg.
  simpl in Hfst. subst c1.
  destruct (String.eqb c0 c) eqn:E; [| exact IH].
  apply String.eqb_eq in E. subst c0. now rewrite Eg.
Qed.

(** ** The common dtype *)

Lemma common_step_swap (acc : option dtype) (t u : dtype) :
  common_step (common_step acc t) u = common_step (common_step acc u) t.
Proof. destruct acc as [[] |], t, u; reflexivity. Qed.

Lemma common_fold_permutation (l l' : list dtype) :
  Permutation l l' ->
  forall acc, fold_left common_step l acc = fold_left common_step l' acc.
Proof.
  induction 1 as [| x l l' _ IH | x y l | l l' l'' _ IH1 _ IH2];
    intros acc; simpl.
  - reflexivity.
  - apply IH.
  - now rewrite common_step_swap.
  - now rewrite IH1.
Qed.

(** The common dtype does not depend on the order of the columns. *)
Lemma find_common_type_permutation (l l' : list dtype) :
  Permutation l l' -> find_common_type l = find_common_type l'.
Proof.
  intros H. unfold find_common_type.
  now rewrite (common_fold_permutation l l' H).
Qed.

(** Adding a numeric column to columns gathered as float64 keeps float64. *)
Lemma find_common_type_snoc_float64 (l : list dtype) (u : dtype) :
  is_numeric_kind u = true ->
  find_common_type l = float64 -> find_common_type (l ++ [u]) = float64.
Proof.
  unfold find_common_type. rewrite fold_left_app. simpl.
  destruct (fold_left common_step l None) as [t |]; simpl.
  - intros Hu ->. now destruct u.
  - discriminate.
Qed.

Lemma series_dtype_single (v : json) : series_dtype [v] = dtype_of_cell v.
Proof. reflexivity. Qed.

(** The dtype under which the frame of one record with distinct keys is
    gathered: the common dtype of its values. *)
Lemma frame_dtype_distinct_record (d : dict) :
  NoDup (dict_keys d) ->
  frame_dtype (DataFrame_of_records [d])
  = find_common_type (map (fun kv => dtype_of_cell (snd kv)) d).
Proof.
  intros Hnd. rewrite frame_of_distinct_record by exact Hnd.
  unfold frame_dtype. simpl. now rewrite map_map.
Qed.

Lemma astype_not_float64 (t : dtype) (v : json) : t <> float64 -> astype t v = v.
Proof. destruct t, v; simpl; intros H; congruence. Qed.

Lemma dtype_eqb_eq (t u : dtype) : dtype_eqb t u = true <-> t = u.
Proof. destruct t, u; simpl; split; congruence. Qed.

(** Below 2^53 the cast of an integer to float64 is exact. *)
Lemma round_to_double_exact (z : Z) : Z.abs z < 2 ^ 53 -> round_to_double z = z.
Proof.
  intros H. unfold round_to_double.
  destruct (Z.abs z <? 2 ^ 53) eqn:E; [reflexivity |].
  apply Z.ltb_ge in E. lia.
Qed.

(** ** When the mean fill applies *)

Lemma mean_imputation_no_schema (a : artifacts) (df : DataFrame) :
  expected_features a = None -> mean_imputation a df = Ok df.
Proof.
  intros H. unfold mean_imputation. rewrite H.
  destruct (scaler a) as [[names [mean_at |] tr] |]; reflexivity.
Qed.

Lemma mean_imputation_no_means (a : artifacts) (df : DataFrame) :
  scaler a = None \/ (exists s, scaler a = Some s /\ mean_ s = None) ->
  mean_imputation a df = Ok df.
Proof.
  unfold mean_imputation. intros [H | [s [Hs Hm]]].
  - now rewrite H.
  - rewrite Hs. destruct s as [names means tr]. simpl in Hm. now subst means.
Qed.

Lemma mean_imputation_bad_entry (a : artifacts) (df : DataFrame) (s : Scaler)
  (mean_at : nat -> result pyfloat) (expected : list string) (j : nat) (e : pyexc) :
  scaler a = Some s -> mean_ s = Some mean_at ->
  expected_features a = Some expected ->
  (j < List.length expected)%nat -> mean_at j = Raise e ->
  mean_imputation a df = Ok df.
Proof.
  intros Hs Hm Hexp Hj Hraise. unfold mean_imputation. rewrite Hs, Hexp.
  destruct s as [names means tr]. simpl in Hm. subst means.
  destruct (comprehension_raises
              (fun ic => m <- mean_at (fst ic) ;; Ok (snd ic, JFloat m))
              (enumerate expected) (j, nth j expected "") e) as [e' He'].
  - now apply enumerate_nth.
  - simpl. now rewrite Hraise.
  - rewrite He'. reflexivity.
Qed.

Lemma mean_imputation_all_means (a : artifacts) (df : DataFrame) (s : Scaler)
  (mean_at : nat -> result pyfloat) (expected : list string) (m : nat -> pyfloat) :
  scaler a = Some s -> mean_ s = Some mean_at ->
  expected_features a = Some expected ->
  (forall j, (j < List.length expected)%nat -> mean_at j = Ok (m j)) ->
  mean_imputation a df
  = Ok (fillna_by_column df
          (dict_of_pairs (map (fun ic => (snd ic, JFloat (m (fst ic))))
                              (enumerate expected)))).
Proof.
  intros Hs Hm Hexp Hall. unfold mean_imputation. rewrite Hs, Hexp.
  destruct s as [names means tr]. simpl in Hm. subst means.
  rewrite (comprehension_ok _ (fun ic => (snd ic, JFloat (m (fst ic))))).
  - reflexivity.
  - intros [j c] Hin. simpl. rewrite (Hall j); [reflexivity |].
    now apply enumerate_bound in Hin.
Qed.

(** ** The row that reaches scaling *)

Section ServiceProperties.

Variable pystr : pyexc -> string.
Variable format_exc : pyexc -> string.
Variable median : Series -> json.
Variable mode_values : Series -> Series.

(** On a one-row frame the cascade is the mean fill followed by the
    degenerate fallback, whether or not a null was found. *)
Lemma imputation_normal_form (a : artifacts) (df : DataFrame) (fill : dict) :
  single_cell_columns df = true ->
  mean_imputation a df = Ok (fillna_by_column df fill) ->
  imputation median mode_values a df
  = Ok (degenerate_fallback (fillna_by_column df fill)).
Proof.
  intros Hsingle Hmean. unfold imputation.
  destruct (frame_has_null df) eqn:Hnull.
  - rewrite Hmean. simpl. apply fallback_single_row.
    now apply single_cell_fillna_by_column.
  - rewrite fillna_by_column_no_null by exact Hnull.
    now rewrite degenerate_fallback_no_op.
Qed.

Lemma imputation_without_means (a : artifacts) (df : DataFrame) :
  single_cell_columns df = true ->
  mean_imputation a df = Ok df ->
  imputation median mode_values a df = Ok (degenerate_fallback df).
Proof.
  intros Hsingle Hmean.
  rewrite <- (fillna_by_column_nil df) at 2.
  apply imputation_normal_form; [exact Hsingle |].
  now rewrite fillna_by_column_nil.
Qed.

(** X1: with no schema in the artifacts, the row that reaches scaling is
    the payload itself, key by key in the payload's order, except that a
    null value has become the empty string and a NaN value 0. *)
Theorem schema_unknown_row (a : artifacts) (members : list (string * json)) :
  expected_features a = None ->
  data_to_scale median mode_values a (dict_of_pairs members)
  = Ok {| nrows := 1;
          cols := map (fun kv => (fst kv, [fallback_cell (snd kv)]))
                      (dict_of_pairs members) |}.
Proof.
  intros Hexp. unfold data_to_scale, column_alignment. rewrite Hexp. simpl.
  rewrite imputation_without_means.
  - rewrite frame_of_distinct_record by apply dict_of_pairs_nodup.
    now rewrite degenerate_fallback_cells.
  - apply single_cell_of_records.
  - now apply mean_imputation_no_schema.
Qed.

Lemma astype_isnull (t : dtype) (v : json) : isnull (astype t v) = isnull v.
Proof. destruct t, v; reflexivity. Qed.

Lemma aligned_row_no_null (expected : list string) (features : dict) :
  (forall c v, In c expected -> dict_get features c = Some v -> isnull v = false) ->
  frame_has_null (aligned_row expected features) = false.
Proof.
  intros H. unfold frame_has_null, aligned_row. simpl.
  induction expected as [| c rest IH]; simpl; [reflexivity |].
  rewrite IH by (intros c' v Hc'; apply H; now right).
  rewrite !orb_false_r. unfold aligned_cell.
  destruct (dict_get features c) as [v |] eqn:E; [| reflexivity].
  rewrite astype_isnull. apply (H c v); [now left | exact E].
Qed.

(** X2: with a known schema, when no expected name carries a null in the
    payload, the row that reaches scaling is the aligned row itself: each
    present value as the gathered payload row presents it, absent names at
    0, and the scaler's means play no part. *)
Theorem no_null_no_imputation (a : artifacts) (expected : list string)
  (features : dict) :
  expected_features a = Some expected ->
  (forall c v, In c expected -> dict_get features c = Some v -> isnull v = false) ->
  data_to_scale median mode_values a features
  = Ok {| nrows := 1;
          cols := map (fun c =>
                         (c, [match dict_get features c with
                              | Some v =>
                                  astype (frame_dtype (DataFrame_of_records [features])) v
                              | None => JInt 0
                              end])) expected |}.
Proof.
  intros Hexp Hnonnull. unfold data_to_scale, column_alignment.
  rewrite Hexp, align_single. simpl. unfold imputation.
  now rewrite aligned_row_no_null.
Qed.

(** X3: the mean fill is all or nothing.  When the scaler is absent, stores
    no means, or raises on any one of the means it is asked for, no column
    is filled from a mean: every null cell of the aligned row goes to the
    fallback (empty string for [None], 0 for NaN). *)
Theorem mean_fill_all_or_nothing (a : artifacts) (expected : list string)
  (features : dict) :
  expected_features a = Some expected ->
  (scaler a = None \/
   (exists s, scaler a = Some s /\ mean_ s = None) \/
   (exists s mean_at j e,
       scaler a = Some s /\ mean_ s = Some mean_at /\
       (j < List.length expected)%nat /\ mean_at j = Raise e)) ->
  data_to_scale median mode_values a features
  = Ok {| nrows := 1;
          cols := map (fun c => (c, [fallback_cell (aligned_cell features c)]))
                      expected |}.
Proof.
  intros Hexp Hmeans. unfold data_to_scale, column_alignment.
  rewrite Hexp, align_single. simpl.
  rewrite imputation_without_means.
  - unfold aligned_row. now rewrite degenerate_fallback_cells.
  - apply single_cell_aligned.
  - destruct Hmeans as [H | [H | [s [mean_at [j [e [Hs [Hm [Hj Hraise]]]]]]]]].
    + apply mean_imputation_no_means. now left.
    + apply mean_imputation_no_means. now right.
    + now apply (mean_imputation_bad_entry a _ s mean_at expected j e).
Qed.

(** X4: with a known schema of distinct names and a scaler that yields a
    number as the mean of every position, the cell of the i-th expected name
    that reaches scaling is the payload's value when it is present and not
    null, 0 when the name is absent, and the i-th mean when the value is
    null. *)
Theorem mean_fill_by_position (a : artifacts) (s : Scaler)
  (mean_at : nat -> result pyfloat) (m : nat -> R)
  (expected : list string) (features : dict) :
  expected_features a = Some expected ->
  scaler a = Some s -> mean_ s = Some mean_at ->
  NoDup expected ->
  (forall j, (j < List.length expected)%nat -> mean_at j = Ok (Real (m j))) ->
  data_to_scale median mode_values a features
  = Ok {| nrows := 1;
          cols := map (fun ic => (snd ic,
                                  [mean_filled_cell (m (fst ic))
                                     (aligned_cell features (snd ic))]))
                      (enumerate expected) |}.
Proof.
  intros Hexp Hs Hm Hnd Hall. unfold data_to_scale, column_alignment.
  rewrite Hexp, align_single. simpl.
  set (fill := dict_of_pairs (map (fun ic => (snd ic, JFloat (Real (m (fst ic)))))
                                  (enumerate expected))).
  rewrite (imputation_normal_form a _ fill).
  2: apply single_cell_aligned.
  2: now apply (mean_imputation_all_means a _ s mean_at expected
                  (fun j => Real (m j))).
  assert (Hfill : forall ic, In ic (enumerate expected) ->
                    dict_get fill (snd ic) = Some (JFloat (Real (m (fst ic))))).
  { intros ic Hin. unfold fill.
    assert (Hkeys : map fst (map (fun ic0 : nat * string =>
                                    (snd ic0, JFloat (Real (m (fst ic0)))))
                                 (enumerate expected)) = expected).
    { rewrite map_map. simpl. apply enumerate_snd. }
    rewrite dict_of_pairs_distinct by (rewrite Hkeys; exact Hnd).
    apply dict_get_in_distinct.
    - unfold dict_keys. rewrite Hkeys. exact Hnd.
    - apply (in_map (fun ic0 : nat * string => (snd ic0, JFloat (Real (m (fst ic0)))))).
      exact Hin. }
  assert (Hcols : cols (fillna_by_column (aligned_row expected features) fill)
                  = map (fun ic => (snd ic,
                                    [if isnull (aligned_cell features (snd ic))
                                     then JFloat (Real (m (fst ic)))
                                     else aligned_cell features (snd ic)]))
                        (enumerate expected)).
  { unfold fillna_by_column, aligned_row. simpl.
    rewrite <- (enumerate_snd expected) at 1. rewrite !map_map.
    apply map_ext_in. intros ic Hin. simpl. now rewrite (Hfill ic Hin). }
  unfold degenerate_fallback. rewrite Hcols. simpl. f_equal. f_equal.
  rewrite map_map. apply map_ext. intros ic. rewrite degenerate_fill_cell.
  unfold mean_filled_cell.
  destruct (isnull (aligned_cell features (snd ic))) eqn:E.
  - reflexivity.
  - now rewrite fallback_cell_non_null.
Qed.

(** X5: imputation keeps the shape of the aligned frame and every cell that
    is not null: same row count, same column labels in the same order, and a
    non-null cell reaches scaling unchanged. *)
Theorem imputation_keeps_non_null_cells (a : artifacts) (features : dict) :
  exists df0 df,
    column_alignment a features = Ok df0 /\
    data_to_scale median mode_values a features = Ok df /\
    nrows df = nrows df0 /\
    columns df = columns df0 /\
    (forall c v, find_column (cols df0) c = Some [v] -> isnull v = false ->
                 find_column (cols df) c = Some [v]).
Proof.
  destruct (column_alignment_total a features) as [df0 [Halign [_ Hsingle]]].
  destruct (mean_imputation_total a df0) as [fill Hfill].
  exists df0, (degenerate_fallback (fillna_by_column df0 fill)).
  split; [exact Halign |]. split.
  { unfold data_to_scale. rewrite Halign. simpl.
    now apply imputation_normal_form. }
  split; [reflexivity |]. split.
  { unfold columns, degenerate_fallback, fillna_by_column. simpl.
    rewrite !map_map. apply map_ext. intros c. unfold degenerate_fill.
    destruct (dict_get fill (fst c)); simpl;
      match goal with |- context [if ?b then _ else _] => destruct b end;
      reflexivity. }
  intros c v Hfind Hv.
  unfold degenerate_fallback, fillna_by_column. simpl. rewrite map_map.
  rewrite find_column_map_cols.
  - rewrite Hfind. simpl.
    destruct (dict_get fill c); unfold fillna; simpl; rewrite ?Hv;
      rewrite degenerate_fill_cell, fallback_cell_non_null by exact Hv;
      reflexivity.
  - intros x. unfold degenerate_fill.
    destruct (dict_get fill (fst x)); simpl;
      match goal with |- context [if ?b then _ else _] => destruct b end;
      reflexivity.
Qed.

End ServiceProperties.

(** ** What the endpoint answers *)

Section EndpointProperties.

Variable pystr : pyexc -> string.
Variable format_exc : pyexc -> string.
Variable median : Series -> json.
Variable mode_values : Series -> Series.

(** X6: when the scaler's [transform] raises on the imputed row, the
    answer is a 200 whose body carries that exception's message and trace,
    whatever the model is. *)
Theorem scaler_failure_reported (a : artifacts) (s : Scaler)
  (members : list (string * json)) (df : DataFrame) (e : pyexc) :
  scaler a = Some s ->
  data_to_scale median mode_values a (dict_of_pairs members) = Ok df ->
  transform s df = Raise e ->
  predict_endpoint pystr format_exc median mode_values a (JObj members)
  = {| status := 200;
       body := JObj [("error", JStr (pystr e)); ("trace", JStr (format_exc e))] |}.
Proof.
  intros Hs Hdf Hraise.
  unfold predict_endpoint, AnyDict_validate, predict_default, scaling.
  rewrite Hdf, Hs. cbn -[values]. rewrite Hraise. reflexivity.
Qed.


(** X8: when the model's [predict] raises on the scaled data, the answer is
    a 200 whose body carries that exception's message and trace; the
    probability methods have no say in it. *)
Theorem predict_failure_reported (a : artifacts) (m : Model)
  (members : list (string * json)) (df : DataFrame) (x : ndarray) (e : pyexc) :
  model a = Some m ->
  data_to_scale median mode_values a (dict_of_pairs members) = Ok df ->
  scaling a df = Ok x ->
  predict m x = Raise e ->
  predict_endpoint pystr format_exc median mode_values a (JObj members)
  = {| status := 200;
       body := JObj [("error", JStr (pystr e)); ("trace", JStr (format_exc e))] |}.
Proof.
  intros Hm Hdf Hx Hraise.
  unfold predict_endpoint, AnyDict_validate, predict_default, predict_and_respond.
  rewrite Hdf. cbn -[scaling]. rewrite Hx, Hm. cbn. rewrite Hraise. reflexivity.
Qed.

(** With a model present the response is a prediction, an error with a
    trace, or the 500 of a dict that does not encode. *)
Lemma response_with_model (a : artifacts) (m : Model) (members : list (string * json)) :
  model a = Some m ->
  (exists prediction probability,
      predict_endpoint pystr format_exc median mode_values a (JObj members)
      = {| status := 200; body := prediction_result prediction probability |}) \/
  (exists e,
      predict_endpoint pystr format_exc median mode_values a (JObj members)
      = {| status := 200; body := error_with_trace pystr format_exc e |}) \/
  predict_endpoint pystr format_exc median mode_values a (JObj members)
  = {| status := 500; body := JStr "Internal Server Error" |}.
Proof.
  intros Hm.
  destruct (data_to_scale_total median mode_values a (dict_of_pairs members))
    as [df [Hdf _]].
  unfold predict_endpoint, AnyDict_validate, predict_default, predict_and_respond.
  rewrite Hdf, Hm. cbn -[scaling probability_step].
  destruct (scaling a df) as [x | e]; cbn -[probability_step].
  - destruct (predict m x) as [prediction | e]; cbn -[probability_step].
    + destruct (probability_step_total m x) as [prob Hprob]. rewrite Hprob.
      cbn [bind try_except respond].
      destruct (encodable (prediction_result prediction prob));
        [left; now exists prediction, prob | right; now right].
    + right. left. now exists e.
  - right. left. now exists e.
Qed.

Lemma endpoint_without_artifacts (members : list (string * json)) :
  predict_endpoint pystr format_exc median mode_values
    {| model := None; scaler := None |} (JObj members)
  = {| status := 200; body := model_not_loaded |}.
Proof.
  destruct (data_to_scale_total median mode_values
              {| model := None; scaler := None |} (dict_of_pairs members))
    as [df [Hdf _]].
  unfold predict_endpoint, AnyDict_validate, predict_default.
  rewrite Hdf. reflexivity.
Qed.

(** X9: with a model loaded, every JSON-object payload is answered with a
    200 carrying a prediction result, a 200 carrying an error with a trace,
    or a 500; never with the body [{"error": "model not loaded"}]. *)
Theorem loaded_model_never_reported_missing (a : artifacts) (m : Model)
  (members : list (string * json)) :
  model a = Some m ->
  ((exists prediction probability,
       predict_endpoint pystr format_exc median mode_values a (JObj members)
       = {| status := 200;
            body := JObj [("default_prediction", JInt prediction);
                          ("default_probability", json_of_probability probability)] |}) \/
   (exists e,
       predict_endpoint pystr format_exc median mode_values a (JObj members)
       = {| status := 200;
            body := JObj [("error", JStr (pystr e)); ("trace", JStr (format_exc e))] |}) \/
   predict_endpoint pystr format_exc median mode_values a (JObj members)
   = {| status := 500; body := JStr "Internal Server Error" |}) /\
  body (predict_endpoint pystr format_exc median mode_values a (JObj members))
  <> JObj [("error", JStr "model not loaded")].
Proof.
  intros Hm.
  destruct (response_with_model a m members Hm)
    as [[prediction [prob H]] | [[e H] | H]]; rewrite H.
  - split; [left; now exists prediction, prob | discriminate].
  - split; [right; left; now exists e | discriminate].
  - split; [right; now right | discriminate].
Qed.

(** X10: after start-up [/health] reports [model_loaded] true exactly when
    the model load returned, whatever became of the scaler; and it reports
    false exactly when [/predict] answers a JSON-object payload with
    [{"error": "model not loaded"}]. *)
Theorem health_matches_predict (load_model : result Model)
  (load_scaler : result Scaler) (members : list (string * json)) :
  health (startup load_model load_scaler)
  = JObj [("status", JStr "ok");
          ("model_loaded", JBool (match load_model with
                                  | Ok _ => true
                                  | Raise _ => false
                                  end))] /\
  (health (startup load_model load_scaler)
   = JObj [("status", JStr "ok"); ("model_loaded", JBool false)]
   <->
   predict_endpoint pystr format_exc median mode_values
     (startup load_model load_scaler) (JObj members)
   = {| status := 200; body := JObj [("error", JStr "model not loaded")] |}).
Proof.
  split.
  - destruct load_model, load_scaler; reflexivity.
  - destruct load_model as [m | e].
    + split.
      * destruct load_scaler; discriminate.
      * intros Habs. exfalso.
        assert (Hm : model (startup (Ok m) load_scaler) = Some m)
          by (destruct load_scaler; reflexivity).
        destruct (response_with_model _ m members Hm)
          as [[prediction [prob H]] | [[e' H] | H]];
          rewrite H in Habs; discriminate Habs.
    + split; intros _; [apply endpoint_without_artifacts | reflexivity].
Qed.

Lemma endpoint_by_aligned_row (a : artifacts) (expected : list string)
  (members1 members2 : list (string * json)) :
  expected_features a = Some expected ->
  aligned_row expected (dict_of_pairs members1)
  = aligned_row expected (dict_of_pairs members2) ->
  predict_endpoint pystr format_exc median mode_values a (JObj members1)
  = predict_endpoint pystr format_exc median mode_values a (JObj members2).
Proof.
  intros Hexp Hrow.
  unfold predict_endpoint, AnyDict_validate, predict_default, data_to_scale,
    column_alignment.
  rewrite Hexp, !align_single, Hrow. reflexivity.
Qed.

(** X11: with a known schema the order of the payload's keys does not
    matter: two payloads with the same distinct members in different orders
    get the same response. *)
Theorem key_order_irrelevant (a : artifacts) (expected : list string)
  (members1 members2 : list (string * json)) :
  expected_features a = Some expected ->
  NoDup (map fst members1) ->
  Permutation members1 members2 ->
  predict_endpoint pystr format_exc median mode_values a (JObj members1)
  = predict_endpoint pystr format_exc median mode_values a (JObj members2).
Proof.
  intros Hexp Hnd Hperm.
  assert (Hnd2 : NoDup (map fst members2)).
  { apply (Permutation_NoDup (l := map fst members1)); [| exact Hnd].
    now apply Permutation_map. }
  apply (endpoint_by_aligned_row a expected); [exact Hexp |].
  rewrite !dict_of_pairs_distinct by assumption.
  apply aligned_row_ext.
  - intros c _. now apply dict_get_permutation.
  - rewrite !frame_dtype_distinct_record by assumption.
    f_equal. apply find_common_type_permutation.
    now apply Permutation_map.
Qed.

(** X12: with a known schema, leaving a name out of the payload gives the
    same response as sending it with the integer 0, provided the payload
    with that 0 is not gathered as float64 (it holds a value that is not a
    number, or only integers of one kind). *)
Theorem absent_name_equals_zero (a : artifacts) (expected : list string)
  (members : list (string * json)) (c : string) :
  expected_features a = Some expected ->
  dict_get (dict_of_pairs members) c = None ->
  frame_dtype (DataFrame_of_records [dict_of_pairs (members ++ [(c, JInt 0)])])
  <> float64 ->
  predict_endpoint pystr format_exc median mode_values a (JObj members)
  = predict_endpoint pystr format_exc median mode_values a
      (JObj (members ++ [(c, JInt 0)])).
Proof.
  intros Hexp Habsent Hgather.
  assert (Hgather1 : frame_dtype (DataFrame_of_records [dict_of_pairs members])
                     <> float64).
  { intros H1. apply Hgather.
    rewrite frame_dtype_distinct_record by apply dict_of_pairs_nodup.
    rewrite frame_dtype_distinct_record in H1 by apply dict_of_pairs_nodup.
    rewrite dict_of_pairs_app, dict_set_fresh by now apply dict_get_none.
    rewrite map_app. simpl.
    now apply find_common_type_snoc_float64. }
  apply (endpoint_by_aligned_row a expected); [exact Hexp |].
  unfold aligned_row. f_equal. apply map_ext. intros c'.
  unfold aligned_cell.
  rewrite (dict_of_pairs_app members c (JInt 0)) at 1.
  rewrite dict_get_set.
  destruct (String.eqb c c') eqn:E.
  - apply String.eqb_eq in E. subst c'. rewrite Habsent.
    now rewrite astype_not_float64.
  - destruct (dict_get (dict_of_pairs members) c'); [| reflexivity].
    now rewrite !astype_not_float64.
Qed.

(** X17: with a known schema, two payloads that agree on every expected
    name and are gathered alike (both as float64, or neither) get the same
    response, whatever other keys they carry. *)
Theorem extra_keys_ignored_when_gathered_alike (a : artifacts)
  (expected : list string) (members1 members2 : list (string * json)) :
  expected_features a = Some expected ->
  (forall c, In c expected ->
     dict_get (dict_of_pairs members1) c = dict_get (dict_of_pairs members2) c) ->
  dtype_eqb (frame_dtype (DataFrame_of_records [dict_of_pairs members1])) float64
  = dtype_eqb (frame_dtype (DataFrame_of_records [dict_of_pairs members2])) float64 ->
  predict_endpoint pystr format_exc median mode_values a (JObj members1)
  = predict_endpoint pystr format_exc median mode_values a (JObj members2).
Proof.
  intros Hexp Hagree Hgather.
  apply (endpoint_by_aligned_row a expected); [exact Hexp |].
  now apply aligned_row_ext.
Qed.

End EndpointProperties.

(** ** Start-up and the logistic fallback *)

(** X13: start-up never leaves a scaler in service without a model: either
    the model is loaded or both globals are [None]. *)
Theorem startup_model_first (load_model : result Model) (load_scaler : result Scaler) :
  (exists m, load_model = Ok m /\ model (startup load_model load_scaler) = Some m) \/
  (model (startup load_model load_scaler) = None /\
   scaler (startup load_model load_scaler) = None).
Proof.
  destruct load_model as [m | e].
  - left. exists m. split; [reflexivity |]. destruct load_scaler; reflexivity.
  - right. split; reflexivity.
Qed.

(** X14: the probability obtained from a decision score is NaN when the
    score is NaN, and otherwise a number between 0 and 1 (1 for a score of
    plus infinity, 0 for minus infinity). *)
Theorem sigmoid_bounds (score : pyfloat) :
  ((score = NaN /\ sigmoid score = NaN) \/
   (score <> NaN /\ exists p, sigmoid score = Real p /\ (0 <= p <= 1)%R)) /\
  sigmoid PosInf = Real 1 /\ sigmoid NegInf = Real 0.
Proof.
  split; [| split; reflexivity].
  destruct score as [| | | x]; [left; now split | | |].
  1, 2: right; split; [discriminate |];
    eexists; split; [reflexivity | lra].
  right. split; [discriminate |].
  eexists. split; [reflexivity |].
  pose proof (exp_pos (- x)) as Hexp. split.
  - apply Rlt_le. apply Rdiv_lt_0_compat; lra.
  - apply (Rmult_le_reg_r (1 + exp (- x))); [lra |].
    unfold Rdiv. rewrite Rmult_assoc, Rinv_l by lra. lra.
Qed.

(** X16: with a known schema the aligned frame has one row and exactly the
    expected columns in schema order, and no payload key outside the schema
    labels a column.  A column holds 0 when the payload lacks the name, and
    otherwise the payload's value as the gathered row presents it: the
    value itself unless the payload row is gathered as float64, in which
    case an integer has become the nearest float, which is the same number
    below 2^53. *)
Theorem column_alignment_gathered (a : artifacts) (features : dict)
  (expected : list string) :
  expected_features a = Some expected ->
  exists df,
    column_alignment a features = Ok df /\
    nrows df = 1%nat /\
    columns df = expected /\
    (forall k, ~ In k expected -> ~ In k (columns df)) /\
    cols df
    = map (fun c =>
             (c, [match dict_get features c with
                  | Some v => astype (frame_dtype (DataFrame_of_records [features])) v
                  | None => JInt 0
                  end])) expected /\
    (frame_dtype (DataFrame_of_records [features]) <> float64 ->
     cols df = map (fun c => (c, [match dict_get features c with
                                  | Some v => v
                                  | None => JInt 0
                                  end])) expected) /\
    (forall z, Z.abs z < 2 ^ 53 -> astype float64 (JInt z) = JFloat (Real (IZR z))) /\
    (forall v, (forall z, v <> JInt z) -> astype float64 v = v).
Proof.
  intros Hexp. exists (aligned_row expected features).
  unfold column_alignment. rewrite Hexp, align_single.
  assert (Hcols : columns (aligned_row expected features) = expected).
  { unfold columns. simpl. rewrite map_map. simpl. apply map_id. }
  split; [reflexivity |]. split; [reflexivity |]. split; [exact Hcols |].
  split; [intros k Hk; now rewrite Hcols |]. split; [reflexivity |].
  split; [| split].
  - intros Hgather. unfold aligned_row, aligned_cell. simpl.
    apply map_ext. intros c. destruct (dict_get features c); [| reflexivity].
    now rewrite astype_not_float64.
  - intros z Hz. simpl. now rewrite round_to_double_exact.
  - intros v Hv. destruct v; try reflexivity. now elim (Hv z).
Qed.

(** X15: the probability obtained from a decision score does not decrease
    when the score grows. *)
Theorem sigmoid_monotone (score1 score2 : R) :
  (score1 <= score2)%R ->
  exists p1 p2,
    sigmoid (Real score1) = Real p1 /\ sigmoid (Real score2) = Real p2 /\
    (p1 <= p2)%R.
Proof.
  intros Hle. do 2 eexists. split; [reflexivity |]. split; [reflexivity |].
  pose proof (exp_pos (- score1)) as H1. pose proof (exp_pos (- score2)) as H2.
  assert (Hexp : (exp (- score2) <= exp (- score1))%R).
  { destruct Hle as [Hlt | Heq].
    - apply Rlt_le. apply exp_increasing. lra.
    - subst. apply Rle_refl. }
  unfold Rdiv. rewrite !Rmult_1_l. apply Rinv_le_contravar; lra.
Qed.

(** ** The further properties at concrete inputs *)

(** X1 for a service without a scaler and a model without feature names. *)
Lemma schema_unknown_row_witness :
  expected_features {| model := Some constant_model; scaler := None |} = None /\
  data_to_scale median_of_one modes_of_one
    {| model := Some constant_model; scaler := None |}
    (dict_of_pairs [("x", JFloat NaN); ("y", JNull); ("z", JStr "a")])
  = Ok {| nrows := 1;
          cols := map (fun kv => (fst kv, [fallback_cell (snd kv)]))
                      (dict_of_pairs [("x", JFloat NaN); ("y", JNull);
                                      ("z", JStr "a")]) |}.
Proof.
  split; [reflexivity |].
  apply (schema_unknown_row median_of_one modes_of_one
           {| model := Some constant_model; scaler := None |}
           [("x", JFloat NaN); ("y", JNull); ("z", JStr "a")]).
  reflexivity.
Defined.

(** X2 at the scenario's artifacts and payload. *)
Lemma no_null_no_imputation_witness :
  expected_features scenario_artifacts = Some scenario_schema /\
  (forall c v, In c scenario_schema ->
     dict_get (dict_of_pairs scenario_payload) c = Some v -> isnull v = false) /\
  data_to_scale median_of_one modes_of_one scenario_artifacts
    (dict_of_pairs scenario_payload)
  = Ok {| nrows := 1;
          cols := [("income", [JInt 50000]); ("age", [JInt 35]);
                   ("debt", [JInt 0])] |}.
Proof.
  assert (Hnonnull : forall c v, In c scenario_schema ->
            dict_get (dict_of_pairs scenario_payload) c = Some v ->
            isnull v = false).
  { intros c v [H | [H | [H | []]]] Hget; subst c; simpl in Hget;
      try discriminate Hget; injection Hget as <-; reflexivity. }
  split; [reflexivity |]. split; [exact Hnonnull |].
  apply (no_null_no_imputation median_of_one modes_of_one scenario_artifacts
           scenario_schema (dict_of_pairs scenario_payload) eq_refl Hnonnull).
Defined.

(** X3 for a scaler that lacks the third mean: the null income is not
    filled from the first mean either. *)
Lemma mean_fill_all_or_nothing_witness :
  expected_features {| model := Some constant_model;
                       scaler := Some short_means_scaler |}
  = Some scenario_schema /\
  (2 < List.length scenario_schema)%nat /\
  (exists e, nth 2 [Ok (Real 60000); Ok (Real 40)]
               (Raise (PyError "IndexError" "index out of bounds")) = Raise e) /\
  data_to_scale median_of_one modes_of_one
    {| model := Some constant_model; scaler := Some short_means_scaler |}
    (dict_of_pairs [("income", JNull); ("age", JInt 35)])
  = Ok {| nrows := 1;
          cols := [("income", [JStr ""]); ("age", [JInt 35]); ("debt", [JInt 0])] |}.
Proof.
  split; [reflexivity |]. split; [simpl; lia |]. split; [now eexists |].
  apply (mean_fill_all_or_nothing median_of_one modes_of_one
           {| model := Some constant_model; scaler := Some short_means_scaler |}
           scenario_schema (dict_of_pairs [("income", JNull); ("age", JInt 35)])
           eq_refl).
  right. right.
  exists short_means_scaler,
    (fun i => nth i [Ok (Real 60000); Ok (Real 40)]
                (Raise (PyError "IndexError" "index out of bounds"))),
    2%nat, (PyError "IndexError" "index out of bounds").
  repeat split. simpl. lia.
Defined.

(** X4 at the scenario's scaler, with debt sent as an explicit null. *)
Lemma mean_fill_by_position_witness :
  expected_features scenario_artifacts = Some scenario_schema /\
  NoDup scenario_schema /\
  (forall j, (j < List.length scenario_schema)%nat ->
             scenario_means j = Ok (Real (scenario_mean_values j))) /\
  data_to_scale median_of_one modes_of_one scenario_artifacts
    (dict_of_pairs [("income", JInt 50000); ("debt", JNull)])
  = Ok {| nrows := 1;
          cols := [("income", [JInt 50000]); ("age", [JInt 0]);
                   ("debt", [JFloat (Real 1200)])] |}.
Proof.
  assert (Hnd : NoDup scenario_schema).
  { unfold scenario_schema. repeat constructor; simpl; intuition discriminate. }
  assert (Hall : forall j, (j < List.length scenario_schema)%nat ->
                           scenario_means j = Ok (Real (scenario_mean_values j))).
  { intros j Hj. simpl in Hj.
    destruct j as [| [| [| j]]]; try reflexivity. lia. }
  split; [reflexivity |]. split; [exact Hnd |]. split; [exact Hall |].
  apply (mean_fill_by_position median_of_one modes_of_one scenario_artifacts
           scenario_scaler scenario_means scenario_mean_values scenario_schema
           (dict_of_pairs [("income", JInt 50000); ("debt", JNull)])
           eq_refl eq_refl eq_refl Hnd Hall).
Defined.

(** X6 for a scaler that rejects a string cell. *)
Lemma scaler_failure_reported_witness :
  data_to_scale median_of_one modes_of_one
    {| model := Some constant_model; scaler := Some rejecting_scaler |}
    (dict_of_pairs [("income", JStr "abc")])
  = Ok {| nrows := 1;
          cols := [("income", [JStr "abc"]); ("age", [JInt 0]); ("debt", [JInt 0])] |} /\
  predict_endpoint str_of_exc trace_of_exc median_of_one modes_of_one
    {| model := Some constant_model; scaler := Some rejecting_scaler |}
    (JObj [("income", JStr "abc")])
  = {| status := 200;
       body := JObj [("error", JStr "could not convert string to float: 'abc'");
                     ("trace", JStr (trace_of_exc
                                       (PyError "ValueError"
                                          "could not convert string to float: 'abc'")))] |}.
Proof.
  split; [reflexivity |].
  apply (scaler_failure_reported str_of_exc trace_of_exc median_of_one modes_of_one
           {| model := Some constant_model; scaler := Some rejecting_scaler |}
           rejecting_scaler [("income", JStr "abc")]
           {| nrows := 1;
              cols := [("income", [JStr "abc"]); ("age", [JInt 0]);
                       ("debt", [JInt 0])] |}
           (PyError "ValueError" "could not convert string to float: 'abc'"));
    reflexivity.
Defined.


(** X8 for a model that rejects a string cell, with no scaler. *)
Lemma predict_failure_reported_witness :
  predict rejecting_model [[JStr "abc"]]
  = Raise (PyError "ValueError" "could not convert string to float: 'abc'") /\
  predict_endpoint str_of_exc trace_of_exc median_of_one modes_of_one
    {| model := Some rejecting_model; scaler := None |}
    (JObj [("income", JStr "abc")])
  = {| status := 200;
       body := JObj [("error", JStr "could not convert string to float: 'abc'");
                     ("trace", JStr (trace_of_exc
                                       (PyError "ValueError"
                                          "could not convert string to float: 'abc'")))] |}.
Proof.
  split; [reflexivity |].
  apply (predict_failure_reported str_of_exc trace_of_exc median_of_one modes_of_one
           {| model := Some rejecting_model; scaler := None |}
           rejecting_model [("income", JStr "abc")]
           {| nrows := 1; cols := [("income", [JStr "abc"])] |}
           [[JStr "abc"]]
           (PyError "ValueError" "could not convert string to float: 'abc'"));
    reflexivity.
Defined.

(** X9 at the scenario's artifacts and payload. *)
Lemma loaded_model_never_reported_missing_witness :
  model scenario_artifacts = Some constant_model /\
  body (predict_endpoint str_of_exc trace_of_exc median_of_one modes_of_one
          scenario_artifacts (JObj scenario_payload))
  <> JObj [("error", JStr "model not loaded")].
Proof.
  split; [reflexivity |].
  apply (loaded_model_never_reported_missing str_of_exc trace_of_exc
           median_of_one modes_of_one scenario_artifacts constant_model
           scenario_payload eq_refl).
Defined.

(** X11 for the scenario's payload and the same members in reverse. *)
Lemma key_order_irrelevant_witness :
  expected_features scenario_artifacts = Some scenario_schema /\
  NoDup (map fst scenario_payload) /\
  Permutation scenario_payload [("age", JInt 35); ("income", JInt 50000)] /\
  predict_endpoint str_of_exc trace_of_exc median_of_one modes_of_one
    scenario_artifacts (JObj scenario_payload)
  = predict_endpoint str_of_exc trace_of_exc median_of_one modes_of_one
      scenario_artifacts (JObj [("age", JInt 35); ("income", JInt 50000)]).
Proof.
  assert (Hnd : NoDup (map fst scenario_payload)).
  { unfold scenario_payload. repeat constructor; simpl; intuition discriminate. }
  assert (Hperm : Permutation scenario_payload
                    [("age", JInt 35); ("income", JInt 50000)])
    by apply perm_swap.
  split; [reflexivity |]. split; [exact Hnd |]. split; [exact Hperm |].
  apply (key_order_irrelevant str_of_exc trace_of_exc median_of_one modes_of_one
           scenario_artifacts scenario_schema scenario_payload
           [("age", JInt 35); ("income", JInt 50000)] eq_refl Hnd Hperm).
Defined.

(** X12 for the scenario's payload and the absent name debt. *)
Lemma absent_name_equals_zero_witness :
  expected_features scenario_artifacts = Some scenario_schema /\
  dict_get (dict_of_pairs scenario_payload) "debt" = None /\
  frame_dtype (DataFrame_of_records
                 [dict_of_pairs (scenario_payload ++ [("debt", JInt 0)])])
  <> float64 /\
  predict_endpoint str_of_exc trace_of_exc median_of_one modes_of_one
    scenario_artifacts (JObj scenario_payload)
  = predict_endpoint str_of_exc trace_of_exc median_of_one modes_of_one
      scenario_artifacts (JObj (scenario_payload ++ [("debt", JInt 0)])).
Proof.
  assert (Hgather : frame_dtype (DataFrame_of_records
                      [dict_of_pairs (scenario_payload ++ [("debt", JInt 0)])])
                    <> float64) by discriminate.
  split; [reflexivity |]. split; [reflexivity |]. split; [exact Hgather |].
  apply (absent_name_equals_zero str_of_exc trace_of_exc median_of_one modes_of_one
           scenario_artifacts scenario_schema scenario_payload "debt"
           eq_refl eq_refl Hgather).
Defined.

(** X16 at a payload of one integer and one float: the row is gathered as
    float64 and the integer 35 reaches the aligned frame as the float 35. *)
Lemma column_alignment_gathered_witness :
  expected_features {| model := Some income_age_model; scaler := None |}
  = Some ["income"; "age"] /\
  exists df,
    column_alignment {| model := Some income_age_model; scaler := None |}
      (dict_of_pairs [("income", JFloat (Real (1 / 2))); ("age", JInt 35)])
    = Ok df /\
    cols df = [("income", [JFloat (Real (1 / 2))]); ("age", [JFloat (Real 35)])].
Proof.
  split; [reflexivity |].
  destruct (column_alignment_gathered
              {| model := Some income_age_model; scaler := None |}
              (dict_of_pairs [("income", JFloat (Real (1 / 2))); ("age", JInt 35)])
              ["income"; "age"] eq_refl)
    as [df [Hdf [_ [_ [_ [Hcols _]]]]]].
  exists df. split; [exact Hdf |]. rewrite Hcols. reflexivity.
Defined.

(** X17 for the scenario's payload, with and without an extra string key. *)
Lemma extra_keys_ignored_when_gathered_alike_witness :
  expected_features scenario_artifacts = Some scenario_schema /\
  (forall c, In c scenario_schema ->
     dict_get (dict_of_pairs scenario_payload) c
     = dict_get (dict_of_pairs (scenario_payload ++ [("zip", JStr "90210")])) c) /\
  dtype_eqb (frame_dtype (DataFrame_of_records [dict_of_pairs scenario_payload]))
    float64
  = dtype_eqb (frame_dtype (DataFrame_of_records
                              [dict_of_pairs (scenario_payload
                                              ++ [("zip", JStr "90210")])]))
      float64 /\
  predict_endpoint str_of_exc trace_of_exc median_of_one modes_of_one
    scenario_artifacts (JObj scenario_payload)
  = predict_endpoint str_of_exc trace_of_exc median_of_one modes_of_one
      scenario_artifacts (JObj (scenario_payload ++ [("zip", JStr "90210")])).
Proof.
  assert (Hagree : forall c, In c scenario_schema ->
            dict_get (dict_of_pairs scenario_payload) c
            = dict_get (dict_of_pairs (scenario_payload ++ [("zip", JStr "90210")])) c).
  { intros c [H | [H | [H | []]]]; subst c; reflexivity. }
  split; [reflexivity |]. split; [exact Hagree |]. split; [reflexivity |].
  apply (extra_keys_ignored_when_gathered_alike str_of_exc trace_of_exc
           median_of_one modes_of_one scenario_artifacts scenario_schema
           scenario_payload (scenario_payload ++ [("zip", JStr "90210")])
           eq_refl Hagree eq_refl).
Defined.

(** X15 for the scores 0 and 1. *)
Lemma sigmoid_monotone_witness :
  (0 <= 1)%R /\
  exists p1 p2,
    sigmoid (Real 0) = Real p1 /\ sigmoid (Real 1) = Real p2 /\ (p1 <= p2)%R.
Proof.
  assert (H : (0 <= 1)%R) by lra.
  split; [exact H |].
  apply (sigmoid_monotone 0 1 H).
Defined.
